(** * tg-analys: the event handlers of the bot and their persistent store

    A shallow embedding of [src/database.py] (the [Database] class over
    five tables) and of [src/bot.py] (the aiogram handlers), followed by
    the properties of the specification that concern them.

    Conventions of the embedding.
    - Python integers are [Z]; SQL [NULL] and Python [None] are [None].
    - A table with a primary key is a [gmap] from the key to the rest of
      the row; a table with a serial key is the list of its rows in
      insertion order.  The [created_at] columns, filled by the store
      with the current time, are left out.
    - A coroutine is a function from the state of the world to an
      outcome (a value or a raised exception), a new state and the trace
      of the effects it performed, in order.  The store, the transport,
      the file system and the two services are awaited one after the
      other, so [await] is sequential composition.
    - What the repository imports but does not define ([transcribe_audio],
      [analyze_messages], [custom_analysis], the transport of aiogram)
      is a field of the environment [Env]: it answers or raises.  So
      is what [int] makes of text outside ASCII, which the Unicode
      tables of the interpreter decide.  Statements of the store are taken to succeed, and so are
      [os.remove] and the FSM storage, which is in memory.
    - The ids Telegram sends with an update (of users, chats and
      messages) fit the BIGINT columns.  A chat id read from callback
      data is any integer the client chose: the driver refuses one
      outside int64 ([db_get_chat], [db_get_chat_messages]).
    - A handler gets the FSM context aiogram injects for its update; the
      world holds that one context.  [callback.message] is taken to be
      there.  Calls of [logger] are left out. *)

From stdpp Require Import base option list gmap strings sorting.
From Stdlib Require Import ZArith Ascii String.
From Stdlib Require Decimal DecimalString DecimalPos DecimalZ.

Local Open Scope string_scope.

(** ** Python built-ins used by the handlers *)

(** [s.split(sep)] for a one-character separator. *)
Fixpoint py_split (sep : ascii) (s : string) : list string :=
  match s with
  | EmptyString => [EmptyString]
  | String c r =>
      if Ascii.eqb c sep then EmptyString :: py_split sep r
      else match py_split sep r with
           | p :: ps => String c p :: ps
           | [] => [String c EmptyString]
           end
  end.

Definition is_digit (c : ascii) : bool :=
  (48 <=? nat_of_ascii c)%nat && (nat_of_ascii c <=? 57)%nat.

Definition is_space (c : ascii) : bool :=
  ((9 <=? nat_of_ascii c)%nat && (nat_of_ascii c <=? 13)%nat)
  || (nat_of_ascii c =? 32)%nat.

Fixpoint lstrip (s : string) : string :=
  match s with
  | String c r => if is_space c then lstrip r else s
  | EmptyString => EmptyString
  end.

Fixpoint digits (s : string) (acc : Z) : option Z :=
  match s with
  | EmptyString => Some acc
  | String c r =>
      if is_digit c
      then digits r (10 * acc + (Z.of_nat (nat_of_ascii c) - 48))%Z
      else if forallb is_space (list_ascii_of_string s) then Some acc
      else None
  end.

Definition unsigned (s : string) : option Z :=
  match s with
  | String c _ => if is_digit c then digits s 0 else None
  | EmptyString => None
  end.

(** [int(s)] on ASCII text: blanks around the literal, an optional
    sign, decimal digits; [None] stands for [ValueError].  Underscores
    cannot occur in a piece of [split("_")], and the limit newer
    interpreters set on the number of digits (4300) is out of reach of
    callback data, which Telegram keeps within 64 bytes.  Python also
    reads the decimal digits and the blanks of other scripts: text that
    holds a character outside ASCII is not read by [py_int], see [int]
    in [bot]. *)
Definition py_int (s : string) : option Z :=
  match lstrip s with
  | String "-" r => Z.opp <$> unsigned r
  | String "+" r => unsigned r
  | t => unsigned t
  end.

(** [s.isascii()] *)
Definition ascii_only (s : string) : bool :=
  forallb (λ c, (nat_of_ascii c <? 128)%nat) (list_ascii_of_string s).

(** [a or b] on optional strings: [None] and the empty string are
    falsy. *)
Definition py_or (a b : option string) : option string :=
  match a with
  | Some EmptyString | None => b
  | Some _ => a
  end.

(** Truth value of an optional string. *)
Definition truthy (a : option string) : bool :=
  match a with
  | Some EmptyString | None => false
  | Some _ => true
  end.

(** [str(n)], and [f"{n}"], of an integer: the decimal digits, after a
    minus sign when [n] is negative. *)
Definition py_str (n : Z) : string :=
  DecimalString.NilZero.string_of_int (Z.to_int n).

(** ** database.py *)

Module database.

(** [users(user_id PK, username, first_name, last_name, is_authorized)] *)
Record user_row := {
  username : option string;
  first_name : option string;
  last_name : option string;
  is_authorized : bool
}.

(** [chats(chat_id PK, chat_type, title, transcription_enabled DEFAULT TRUE)] *)
Record chat_row := {
  chat_type : string;
  title : option string;
  transcription_enabled : bool
}.

(** [messages(message_id BIGSERIAL, chat_id, user_id, message_text,
    message_date, is_voice, transcription)] *)
Record message_row := {
  m_chat_id : Z;
  m_user_id : Z;
  message_text : option string;
  message_date : Z;
  is_voice : bool;
  transcription : option string
}.

(** [business_connections(connection_id PK, user_id, user_chat_id,
    is_active DEFAULT TRUE)] *)
Record connection_row := {
  bc_user_id : Z;
  bc_user_chat_id : Z;
  is_active : bool
}.

(** [analysis_results(id BIGSERIAL, chat_id, user_id, analysis_type,
    result_text)] *)
Record analysis_row := {
  a_chat_id : option Z;
  a_user_id : Z;
  analysis_type : string;
  result_text : string
}.

Record Database := {
  users : gmap Z user_row;
  chats : gmap Z chat_row;
  messages : list message_row;
  business_connections : gmap string connection_row;
  analysis_results : list analysis_row
}.

(** The store after [create_tables] on a fresh database. *)
Definition empty_db : Database :=
  {| users := ∅; chats := ∅; messages := [];
     business_connections := ∅; analysis_results := [] |}.

Definition with_users (u : gmap Z user_row) (d : Database) : Database :=
  {| users := u; chats := chats d; messages := messages d;
     business_connections := business_connections d;
     analysis_results := analysis_results d |}.

Definition with_chats (c : gmap Z chat_row) (d : Database) : Database :=
  {| users := users d; chats := c; messages := messages d;
     business_connections := business_connections d;
     analysis_results := analysis_results d |}.

Definition with_messages (m : list message_row) (d : Database) : Database :=
  {| users := users d; chats := chats d; messages := m;
     business_connections := business_connections d;
     analysis_results := analysis_results d |}.

Definition with_business_connections
    (b : gmap string connection_row) (d : Database) : Database :=
  {| users := users d; chats := chats d; messages := messages d;
     business_connections := b;
     analysis_results := analysis_results d |}.

Definition with_analysis_results
    (a : list analysis_row) (d : Database) : Database :=
  {| users := users d; chats := chats d; messages := messages d;
     business_connections := business_connections d;
     analysis_results := a |}.

(** *** User operations *)

(** [INSERT ... VALUES (.., TRUE) ON CONFLICT (user_id) DO UPDATE SET ...,
    is_authorized = TRUE] *)
Definition add_user (user_id : Z) (username first_name last_name : option string)
    (d : Database) : Database :=
  with_users
    (<[user_id := {| username := username; first_name := first_name;
                     last_name := last_name; is_authorized := true |}]>
       (users d)) d.

Definition get_user (user_id : Z) (d : Database) : option user_row :=
  users d !! user_id.

(** [return user and user.get("is_authorized", False)], as the truth
    value its callers test. *)
Definition is_user_authorized (user_id : Z) (d : Database) : bool :=
  match get_user user_id d with
  | Some user => is_authorized user
  | None => false
  end.

(** *** Chat operations *)

(** [INSERT INTO chats (chat_id, chat_type, title) ... ON CONFLICT
    (chat_id) DO UPDATE SET chat_type = $2, title = $3]: a new row takes
    the column default of [transcription_enabled], an old one keeps its
    flag. *)
Definition add_chat (chat_id : Z) (chat_type : string) (title : option string)
    (d : Database) : Database :=
  let flag := match chats d !! chat_id with
              | Some row => transcription_enabled row
              | None => true
              end in
  with_chats
    (<[chat_id := {| chat_type := chat_type; title := title;
                     transcription_enabled := flag |}]> (chats d)) d.

(** [SELECT * FROM chats WHERE chat_id = $1]: the row the query
    selects.  The driver encodes the parameter before the query is
    sent and refuses an integer outside int64; the handlers that pass
    an id read from callback data call the method through
    [bot.db_get_chat], which has that refusal. *)
Definition get_chat (chat_id : Z) (d : Database) : option chat_row :=
  chats d !! chat_id.

(** [UPDATE chats SET transcription_enabled = $1 WHERE chat_id = $2] *)
Definition set_transcription_enabled (chat_id : Z) (enabled : bool)
    (d : Database) : Database :=
  with_chats
    (match chats d !! chat_id with
     | Some row =>
         <[chat_id := {| chat_type := chat_type row; title := title row;
                         transcription_enabled := enabled |}]> (chats d)
     | None => chats d
     end) d.

Definition is_transcription_enabled (chat_id : Z) (d : Database) : bool :=
  match get_chat chat_id d with
  | None => true
  | Some chat => transcription_enabled chat
  end.

(** *** Message operations *)

Definition add_message (chat_id user_id : Z) (message_text : option string)
    (message_date : Z) (is_voice : bool) (transcription : option string)
    (d : Database) : Database :=
  with_messages
    (messages d ++
       [{| m_chat_id := chat_id; m_user_id := user_id;
           message_text := message_text; message_date := message_date;
           is_voice := is_voice; transcription := transcription |}]) d.

(** [ORDER BY message_date DESC]: the order the sort keeps. *)
Definition newer_first (a b : message_row) : Prop :=
  (message_date b <= message_date a)%Z.

#[global] Instance newer_first_dec a b : Decision (newer_first a b) :=
  Z_le_dec (message_date b) (message_date a).

(** [SELECT * FROM messages WHERE chat_id = $1 ORDER BY message_date
    DESC LIMIT $2]: the rows the query selects.  A [NULL] parameter
    selects nothing.  Rows of equal date come in the order the merge
    sort leaves them; SQL fixes none.  The driver refuses a parameter
    outside int64, see [bot.db_get_chat_messages]. *)
Definition get_chat_messages (chat_id : option Z) (limit : nat)
    (d : Database) : list message_row :=
  match chat_id with
  | None => []
  | Some c =>
      take limit
        (merge_sort newer_first
           (filter (λ m, m_chat_id m = c) (messages d)))
  end.

(** *** Analysis operations *)

Definition add_analysis_result (chat_id : option Z) (user_id : Z)
    (analysis_type result_text : string) (d : Database) : Database :=
  with_analysis_results
    (analysis_results d ++
       [{| a_chat_id := chat_id; a_user_id := user_id;
           analysis_type := analysis_type; result_text := result_text |}]) d.

(** *** Business connection operations *)

(** [INSERT ... VALUES ($1, $2, $3, TRUE) ON CONFLICT (connection_id)
    DO UPDATE SET user_id = $2, user_chat_id = $3, is_active = TRUE] *)
Definition add_business_connection (connection_id : string)
    (user_id user_chat_id : Z) (d : Database) : Database :=
  with_business_connections
    (<[connection_id := {| bc_user_id := user_id;
                           bc_user_chat_id := user_chat_id;
                           is_active := true |}]>
       (business_connections d)) d.

(** [UPDATE business_connections SET is_active = FALSE WHERE
    connection_id = $1] *)
Definition remove_business_connection (connection_id : string)
    (d : Database) : Database :=
  with_business_connections
    (match business_connections d !! connection_id with
     | Some row =>
         <[connection_id := {| bc_user_id := bc_user_id row;
                               bc_user_chat_id := bc_user_chat_id row;
                               is_active := false |}]>
           (business_connections d)
     | None => business_connections d
     end) d.

(** [SELECT * FROM business_connections WHERE connection_id = $1 AND
    is_active = TRUE] *)
Definition get_business_connection (connection_id : string)
    (d : Database) : option connection_row :=
  match business_connections d !! connection_id with
  | Some row => if is_active row then Some row else None
  | None => None
  end.

End database.

(** ** bot.py *)

Module bot.
Import database.

(** *** The events aiogram hands to the handlers *)

Record User := {
  u_id : Z;
  u_username : option string;
  u_first_name : option string;
  u_last_name : option string
}.

Record Chat := {
  c_id : Z;
  c_type : string;
  c_title : option string;
  c_first_name : option string
}.

Record Voice := { file_id : string }.

Record Message := {
  message_id : Z;
  from_user : option User;
  chat : Chat;
  date : Z;
  text : option string;
  voice : option Voice;
  business_connection_id : option string
}.

(** [callback.message] is the message that carries the keyboard; the
    handlers only edit it and answer into its chat. *)
Record CallbackQuery := {
  cq_data : string;
  cq_from_user : User;
  cq_chat_id : Z
}.

Record BusinessConnection := {
  bcn_id : string;
  bcn_user : User;
  bcn_user_chat_id : Z;
  is_enabled : bool
}.

(** *** What the bot shows *)

Inductive Keyboard :=
  | main_menu_keyboard
  | chat_actions_keyboard (chat_id : option Z)
  | chat_settings_keyboard (chat_id : Z) (transcription_enabled : bool)
  | back_keyboard.

(** The heading of a fixed analysis: [titles.get(analysis_type, ...)]. *)
Inductive Title :=
  | title_summary | title_insights | title_topics | title_sentiment
  | title_default.

Definition titles (analysis_type : string) : Title :=
  if String.eqb analysis_type "summary" then title_summary
  else if String.eqb analysis_type "insights" then title_insights
  else if String.eqb analysis_type "topics" then title_topics
  else if String.eqb analysis_type "sentiment" then title_sentiment
  else title_default.

(** One constructor for each text literal of bot.py, with the values
    its f-string interpolates. *)
Inductive Text :=
  | txt_welcome (first_name : option string)
  | txt_main_menu
  | txt_not_authorized
  | txt_transcribing
  | txt_transcription (transcription : string)
  | txt_voice_error (e : string)
  | txt_no_messages
  | txt_analysing
  | txt_custom_result (result : string)
  | txt_choose_action
  | txt_list_private | txt_list_groups | txt_list_channels | txt_settings
  | txt_chat_not_found
  | txt_chat (title : option string)
  | txt_chat_settings (title : option string)
  | txt_transcription_switched (new_state : bool)
  | txt_ask_question
  | txt_result (title : Title) (result : string).

(** The message a transport call acts on. *)
Inductive Target :=
  | the_status_msg      (* status_msg, the reply just sent *)
  | the_callback_message. (* callback.message *)

(** Calls of the transport that show something to a user. *)
Inductive Out :=
  | message_answer (chat_id : Z) (text : Text) (reply_markup : option Keyboard)
  | edit_text (target : Target) (text : Text) (reply_markup : option Keyboard)
  | edit_reply_markup (reply_markup : Keyboard)
  | callback_answer (text : option Text) (show_alert : bool)
  | send_message (chat_id : Z) (text : Text)
      (business_connection_id : option string) (reply_to_message_id : Z).

(** Statements that change the store. *)
Inductive Sql :=
  | sql_add_user (user_id : Z) (username first_name last_name : option string)
  | sql_add_chat (chat_id : Z) (chat_type : string) (title : option string)
  | sql_set_transcription_enabled (chat_id : Z) (enabled : bool)
  | sql_add_message (chat_id user_id : Z) (message_text : option string)
      (message_date : Z) (is_voice : bool) (transcription : option string)
  | sql_add_analysis_result (chat_id : option Z) (user_id : Z)
      (analysis_type result_text : string)
  | sql_add_business_connection (connection_id : string)
      (user_id user_chat_id : Z)
  | sql_remove_business_connection (connection_id : string).

Definition execute (q : Sql) : Database → Database :=
  match q with
  | sql_add_user u n f l => add_user u n f l
  | sql_add_chat c t ti => add_chat c t ti
  | sql_set_transcription_enabled c b => set_transcription_enabled c b
  | sql_add_message c u t dt v tr => add_message c u t dt v tr
  | sql_add_analysis_result c u t r => add_analysis_result c u t r
  | sql_add_business_connection c u uc => add_business_connection c u uc
  | sql_remove_business_connection c => remove_business_connection c
  end.

(** Everything a handler does to the outside, in the order it does it.
    Reads of the store and of the FSM context are not effects. *)
Inductive Effect :=
  | db_execute (q : Sql)
  | bot_get_file (file_id : string)
  | bot_download_file (file_path voice_path : string)
  | os_remove (voice_path : string)
  | call_transcribe_audio (voice_path : string)
  | call_analyze_messages (messages : list message_row) (analysis_type : string)
  | call_custom_analysis (messages : list message_row) (query : option string)
  | show (o : Out).

Inductive exn :=
  | AttributeError   (* an attribute of [None] *)
  | IndexError
  | ValueError
  | ExternalError (description : string). (* raised by a collaborator *)

(** [str(e)] *)
Definition str (e : exn) : string :=
  match e with
  | AttributeError => "AttributeError"
  | IndexError => "list index out of range"
  | ValueError => "invalid literal for int()"
  | ExternalError s => s
  end.

(** The collaborators of the handlers: each call answers or raises. *)
Record Env := {
  get_file : string → exn + string;
  download_file : string → string → option exn;
  transcribe_audio : string → exn + string;
  analyze_messages : list message_row → string → exn + string;
  custom_analysis : list message_row → option string → exn + string;
  transport : Out → option exn;
  int_unicode : string → option Z
}.

(** The FSM context aiogram injects: a state name and a data dict. *)
Record FSMContext := {
  state_name : option string;
  state_data : gmap string Z
}.

Definition waiting_for_custom_query : string :=
  "AnalysisStates:waiting_for_custom_query".

Definition idle : FSMContext := {| state_name := None; state_data := ∅ |}.

(** The state a handler runs in: the store, the files under [/tmp], and
    the FSM context of the event. *)
Record World := {
  db : Database;
  files : gset string;
  state : FSMContext
}.

Definition with_db (d : Database) (w : World) : World :=
  {| db := d; files := files w; state := state w |}.
Definition with_files (f : gset string) (w : World) : World :=
  {| db := db w; files := f; state := state w |}.
Definition with_state (s : FSMContext) (w : World) : World :=
  {| db := db w; files := files w; state := s |}.

(** *** Coroutines *)

Record Run (A : Type) := mkRun {
  outcome : exn + A;
  final : World;
  trace : list Effect
}.
Arguments mkRun {A} _ _ _.
Arguments outcome {A} _.
Arguments final {A} _.
Arguments trace {A} _.

Definition Co (A : Type) : Type := World → Run A.

Definition ret {A} (a : A) : Co A := λ w, mkRun (inr a) w [].

Definition raise {A} (e : exn) : Co A := λ w, mkRun (inl e) w [].

Definition bind {A B} (m : Co A) (f : A → Co B) : Co B := λ w,
  match m w with
  | mkRun (inl e) w1 t1 => mkRun (inl e) w1 t1
  | mkRun (inr a) w1 t1 =>
      match f a w1 with
      | mkRun o w2 t2 => mkRun o w2 (t1 ++ t2)
      end
  end.

(** [try: m except Exception as e: h e] *)
Definition try_except {A} (m : Co A) (h : exn → Co A) : Co A := λ w,
  match m w with
  | mkRun (inl e) w1 t1 =>
      match h e w1 with
      | mkRun o w2 t2 => mkRun o w2 (t1 ++ t2)
      end
  | mkRun (inr a) w1 t1 => mkRun (inr a) w1 t1
  end.

#[global] Instance co_ret : MRet Co := @ret.
#[global] Instance co_bind : MBind Co := λ A B f m, bind m f.

(** Reading the state. *)
Definition query {A} (f : Database → A) : Co A := λ w, ret (f (db w)) w.

(** The integers a BIGINT parameter can carry. *)
Definition int64 (n : Z) : bool :=
  (-9223372036854775808 <=? n)%Z && (n <=? 9223372036854775807)%Z.

(** What asyncpg raises when an integer outside int64 is passed for a
    BIGINT parameter. *)
Definition DataError : exn :=
  ExternalError "invalid input for query argument: value out of int64 range".

(** [db.get_chat(chat_id)] and [db.get_chat_messages(chat_id, limit)]
    for a chat id that came with callback data.  The driver encodes the
    parameter before it sends the query and raises for an integer
    outside int64.  No row of a BIGINT column holds such an integer, so
    the query of such an id finds nothing: the refusal is placed
    there. *)
Definition db_get_chat (chat_id : Z) : Co (option chat_row) :=
  chat ← query (get_chat chat_id);
  match chat with
  | Some _ => mret chat
  | None => if int64 chat_id then mret None else raise DataError
  end.

Definition db_get_chat_messages (chat_id : option Z) (limit : nat)
    : Co (list message_row) :=
  messages ← query (get_chat_messages chat_id limit);
  match messages with
  | _ :: _ => mret messages
  | [] => if from_option int64 true chat_id then mret [] else raise DataError
  end.

(** One statement against the store. *)
Definition execute_sql (q : Sql) : Co unit := λ w,
  mkRun (inr ()) (with_db (execute q (db w)) w) [db_execute q].

(** An attribute of a value that may be [None]. *)
Definition attr {A} (o : option A) : Co A :=
  match o with
  | Some a => ret a
  | None => raise AttributeError
  end.

(** [parts[i]] *)
Definition item (parts : list string) (i : nat) : Co string :=
  match parts !! i with
  | Some p => ret p
  | None => raise IndexError
  end.

(** [state.get_state()], [state.get_data()], [state.set_state(s)],
    [state.update_data(chat_id=c)], [state.clear()] *)
Definition get_state : Co (option string) := λ w, ret (state_name (state w)) w.
Definition get_data : Co (gmap string Z) := λ w, ret (state_data (state w)) w.
Definition set_state (s : string) : Co unit := λ w,
  ret () (with_state {| state_name := Some s;
                        state_data := state_data (state w) |} w).
Definition update_data (k : string) (v : Z) : Co unit := λ w,
  ret () (with_state {| state_name := state_name (state w);
                        state_data := <[k := v]> (state_data (state w)) |} w).
Definition clear : Co unit := λ w, ret () (with_state idle w).

(** [os.path.exists(p)] and [os.remove(p)] *)
Definition os_path_exists (p : string) : Co bool := λ w,
  ret (bool_decide (p ∈ files w)) w.
Definition remove (p : string) : Co unit := λ w,
  mkRun (inr ()) (with_files (files w ∖ {[p]}) w) [os_remove p].

Section handlers.
Context (E : Env).

(** [int(s)]: ASCII text is read by [py_int], text that holds a
    character outside ASCII with the Unicode tables of the
    interpreter. *)
Definition int (s : string) : Co Z :=
  match (if ascii_only s then py_int s else int_unicode E s) with
  | Some n => ret n
  | None => raise ValueError
  end.

(** A call of a service: the call is in the trace whether it answers or
    raises. *)
Definition call {A} (ef : Effect) (r : exn + A) : Co A := λ w,
  mkRun r w [ef].

(** A transport call that shows [o]: when the transport raises, nothing
    was shown. *)
Definition send (o : Out) : Co unit := λ w,
  match transport E o with
  | Some e => mkRun (inl e) w []
  | None => mkRun (inr ()) w [show o]
  end.

(** [bot.download_file(file_path, voice_path)]: the file is there when
    the call returns. *)
Definition download (file_path voice_path : string) : Co unit := λ w,
  match download_file E file_path voice_path with
  | Some e => mkRun (inl e) w [bot_download_file file_path voice_path]
  | None => mkRun (inr ()) (with_files ({[voice_path]} ∪ files w) w)
              [bot_download_file file_path voice_path]
  end.

(** *** Command handlers *)

Definition cmd_start (message : Message) : Co unit :=
  user ← attr (from_user message);
  execute_sql (sql_add_user (u_id user) (u_username user)
                 (u_first_name user) (u_last_name user));;
  send (message_answer (c_id (chat message))
          (txt_welcome (u_first_name user)) (Some main_menu_keyboard)).

Definition cmd_menu (message : Message) : Co unit :=
  send (message_answer (c_id (chat message)) txt_main_menu
          (Some main_menu_keyboard)).

(** *** Voice messages *)

Definition voice_path_of (v : Voice) : string :=
  "/tmp/voice_" ++ file_id v ++ ".ogg".

Definition handle_voice (message : Message) : Co unit :=
  user ← attr (from_user message);
  let user_id := u_id user in
  let chat_id := c_id (chat message) in
  authorized ← query (is_user_authorized user_id);
  if negb authorized then
    send (message_answer chat_id txt_not_authorized None)
  else
    enabled ← query (is_transcription_enabled chat_id);
    if negb enabled then
      execute_sql (sql_add_message chat_id user_id None (date message) true None)
    else
      execute_sql (sql_add_chat chat_id (c_type (chat message))
                     (py_or (c_title (chat message))
                            (c_first_name (chat message))));;
      try_except
        (v ← attr (voice message);
         file_path ← call (bot_get_file (file_id v)) (get_file E (file_id v));
         let voice_path := voice_path_of v in
         download file_path voice_path;;
         send (message_answer chat_id txt_transcribing None);;
         transcription ← call (call_transcribe_audio voice_path)
                           (transcribe_audio E voice_path);
         there ← os_path_exists voice_path;
         (if there : bool then remove voice_path else mret ());;
         execute_sql (sql_add_message chat_id user_id None (date message)
                        true (Some transcription));;
         send (edit_text the_status_msg (txt_transcription transcription) None))
        (λ e, send (message_answer chat_id (txt_voice_error (str e)) None)).

(** *** Text messages *)

Definition handle_text (message : Message) : Co unit :=
  user ← attr (from_user message);
  let user_id := u_id user in
  let chat_id := c_id (chat message) in
  current_state ← get_state;
  if bool_decide (current_state = Some waiting_for_custom_query) then
    data ← get_data;
    let target_chat_id := data !! "chat_id" in
    messages ← db_get_chat_messages target_chat_id 300;
    match messages with
    | [] =>
        send (message_answer chat_id txt_no_messages None);;
        clear
    | _ :: _ =>
        send (message_answer chat_id txt_analysing None);;
        result ← call (call_custom_analysis messages (text message))
                   (custom_analysis E messages (text message));
        execute_sql (sql_add_analysis_result target_chat_id user_id
                       "custom" result);;
        send (edit_text the_status_msg (txt_custom_result result) None);;
        send (message_answer chat_id txt_choose_action
                (Some (chat_actions_keyboard target_chat_id)));;
        clear
    end
  else
    authorized ← query (is_user_authorized user_id);
    if negb authorized then mret ()
    else
      execute_sql (sql_add_chat chat_id (c_type (chat message))
                     (py_or (c_title (chat message))
                            (c_first_name (chat message))));;
      execute_sql (sql_add_message chat_id user_id (text message)
                     (date message) false None).

(** *** Callback queries *)

Definition callback_back_to_menu (callback : CallbackQuery) : Co unit :=
  clear;;
  send (edit_text the_callback_message txt_main_menu (Some main_menu_keyboard));;
  send (callback_answer None false).

Definition callback_stub (t : Text) (callback : CallbackQuery) : Co unit :=
  send (edit_text the_callback_message t (Some back_keyboard));;
  send (callback_answer None false).

Definition callback_list_private := callback_stub txt_list_private.
Definition callback_list_groups := callback_stub txt_list_groups.
Definition callback_list_channels := callback_stub txt_list_channels.
Definition callback_settings := callback_stub txt_settings.

(** [int(callback.data.split("_")[2])] *)
Definition chat_id_of (data : string) : Co Z :=
  p ← item (py_split "_" data) 2;
  int p.

Definition callback_chat_actions (callback : CallbackQuery) : Co unit :=
  chat_id ← chat_id_of (cq_data callback);
  chat ← db_get_chat chat_id;
  match chat with
  | None => send (callback_answer (Some txt_chat_not_found) true)
  | Some chat =>
      send (edit_text the_callback_message (txt_chat (title chat))
              (Some (chat_actions_keyboard (Some chat_id))));;
      send (callback_answer None false)
  end.

Definition callback_chat_settings (callback : CallbackQuery) : Co unit :=
  chat_id ← chat_id_of (cq_data callback);
  chat ← db_get_chat chat_id;
  match chat with
  | None => send (callback_answer (Some txt_chat_not_found) true)
  | Some chat =>
      send (edit_text the_callback_message (txt_chat_settings (title chat))
              (Some (chat_settings_keyboard chat_id
                       (transcription_enabled chat))));;
      send (callback_answer None false)
  end.

Definition callback_toggle_transcription (callback : CallbackQuery) : Co unit :=
  chat_id ← chat_id_of (cq_data callback);
  chat ← db_get_chat chat_id;
  match chat with
  | None => send (callback_answer (Some txt_chat_not_found) true)
  | Some chat =>
      let current_state := transcription_enabled chat in
      let new_state := negb current_state in
      execute_sql (sql_set_transcription_enabled chat_id new_state);;
      send (edit_reply_markup (chat_settings_keyboard chat_id new_state));;
      send (callback_answer (Some (txt_transcription_switched new_state)) false)
  end.

Definition callback_analyze (callback : CallbackQuery) : Co unit :=
  let parts := py_split "_" (cq_data callback) in
  analysis_type ← item parts 1;
  chat_id ← (p ← item parts 2; int p);
  let user_id := u_id (cq_from_user callback) in
  if String.eqb analysis_type "custom" then
    set_state waiting_for_custom_query;;
    update_data "chat_id" chat_id;;
    send (message_answer (cq_chat_id callback) txt_ask_question None);;
    send (callback_answer None false)
  else
    messages ← db_get_chat_messages (Some chat_id) 300;
    match messages with
    | [] => send (callback_answer (Some txt_no_messages) true)
    | _ :: _ =>
        send (edit_text the_callback_message txt_analysing None);;
        result ← call (call_analyze_messages messages analysis_type)
                   (analyze_messages E messages analysis_type);
        execute_sql (sql_add_analysis_result (Some chat_id) user_id
                       analysis_type result);;
        send (edit_text the_callback_message
                (txt_result (titles analysis_type) result) None);;
        send (message_answer (cq_chat_id callback) txt_choose_action
                (Some (chat_actions_keyboard (Some chat_id))));;
        send (callback_answer None false)
    end.

(** The filters of the [@dp.callback_query] decorators, tried in the
    order of registration; a query no filter accepts is not handled. *)
Definition dispatch_callback (callback : CallbackQuery) : Co unit :=
  let data := cq_data callback in
  if String.eqb data "back_to_menu" then callback_back_to_menu callback
  else if String.eqb data "list_private" then callback_list_private callback
  else if String.eqb data "list_groups" then callback_list_groups callback
  else if String.eqb data "list_channels" then callback_list_channels callback
  else if String.eqb data "settings" then callback_settings callback
  else if String.prefix "chat_actions_" data then callback_chat_actions callback
  else if String.prefix "chat_settings_" data then callback_chat_settings callback
  else if String.prefix "toggle_transcription_" data
       then callback_toggle_transcription callback
  else if String.prefix "analyze_" data then callback_analyze callback
  else mret ().

(** *** Telegram Business *)

Definition handle_business_connection
    (business_connection : BusinessConnection) : Co unit :=
  if is_enabled business_connection then
    execute_sql (sql_add_business_connection (bcn_id business_connection)
                   (u_id (bcn_user business_connection))
                   (bcn_user_chat_id business_connection))
  else
    execute_sql (sql_remove_business_connection (bcn_id business_connection)).

(** [message.from_user.id if message.from_user else 0] *)
Definition sender_id (message : Message) : Z :=
  match from_user message with
  | Some user => u_id user
  | None => 0
  end.

Definition business_title (message : Message) : option string :=
  py_or (py_or (c_title (chat message)) (c_first_name (chat message)))
        (Some "Business Chat").

Definition handle_business_voice (message : Message) : Co unit :=
  if negb (truthy (business_connection_id message)) then mret ()
  else
    connection ← query (get_business_connection
                          (default "" (business_connection_id message)));
    match connection with
    | None => mret ()
    | Some _ =>
        let chat_id := c_id (chat message) in
        let user_id := sender_id message in
        enabled ← query (is_transcription_enabled chat_id);
        if negb enabled then
          execute_sql (sql_add_message chat_id user_id None (date message)
                         true None)
        else
          execute_sql (sql_add_chat chat_id "business" (business_title message));;
          try_except
            (v ← attr (voice message);
             file_path ← call (bot_get_file (file_id v))
                           (get_file E (file_id v));
             let voice_path := voice_path_of v in
             download file_path voice_path;;
             transcription ← call (call_transcribe_audio voice_path)
                               (transcribe_audio E voice_path);
             there ← os_path_exists voice_path;
             (if there : bool then remove voice_path else mret ());;
             execute_sql (sql_add_message chat_id user_id None (date message)
                            true (Some transcription));;
             send (send_message chat_id (txt_transcription transcription)
                     (business_connection_id message) (message_id message)))
            (λ e,
               try_except
                 (send (send_message chat_id (txt_voice_error (str e))
                          (business_connection_id message)
                          (message_id message)))
                 (λ _, mret ()))
    end.

Definition handle_business_text (message : Message) : Co unit :=
  if negb (truthy (business_connection_id message)) then mret ()
  else
    connection ← query (get_business_connection
                          (default "" (business_connection_id message)));
    match connection with
    | None => mret ()
    | Some _ =>
        let chat_id := c_id (chat message) in
        let user_id := sender_id message in
        execute_sql (sql_add_chat chat_id "business" (business_title message));;
        execute_sql (sql_add_message chat_id user_id (text message)
                       (date message) false None)
    end.

(** *** The router *)

(** An update, classified by the filters of the decorators
    ([Command("start")], [Command("menu")], [F.voice], [F.text],
    and the business counterparts). *)
Inductive Event :=
  | command_start (message : Message)
  | command_menu (message : Message)
  | voice_message (message : Message)
  | text_message (message : Message)
  | callback_query (callback : CallbackQuery)
  | business_connection (connection : BusinessConnection)
  | business_voice (message : Message)
  | business_text (message : Message).

Definition handle (ev : Event) : Co unit :=
  match ev with
  | command_start m => cmd_start m
  | command_menu m => cmd_menu m
  | voice_message m => handle_voice m
  | text_message m => handle_text m
  | callback_query c => dispatch_callback c
  | business_connection b => handle_business_connection b
  | business_voice m => handle_business_voice m
  | business_text m => handle_business_text m
  end.

(** Polling: the updates are handled one after the other; an exception
    that escapes a handler is logged by the dispatcher and the next
    update is taken. *)
Fixpoint poll (evs : list Event) : Co unit :=
  match evs with
  | [] => mret ()
  | ev :: rest => try_except (handle ev) (λ _, mret ());; poll rest
  end.

End handlers.

(** *** Observations on a trace *)

(** The statements executed against the store. *)
Definition statements (t : list Effect) : list Sql :=
  omap (λ ef, match ef with db_execute q => Some q | _ => None end) t.

(** What was shown to users. *)
Definition shown (t : list Effect) : list Out :=
  omap (λ ef, match ef with show o => Some o | _ => None end) t.

Definition is_transcription_call (ef : Effect) : bool :=
  match ef with call_transcribe_audio _ => true | _ => false end.

Definition is_analysis_call (ef : Effect) : bool :=
  match ef with
  | call_analyze_messages _ _ | call_custom_analysis _ _ => true
  | _ => false
  end.

Definition is_download (ef : Effect) : bool :=
  match ef with bot_get_file _ | bot_download_file _ _ => true | _ => false end.

(** The store after a list of statements. *)
Definition replay (d : Database) (qs : list Sql) : Database :=
  foldl (λ d q, execute q d) d qs.

(** Replaying [qs] from [d], the chat row is there at every insert of
    a message. *)
Fixpoint chat_before_message (d : Database) (qs : list Sql) : bool :=
  match qs with
  | [] => true
  | q :: rest =>
      match q with
      | sql_add_message c _ _ _ _ _ => bool_decide (is_Some (chats d !! c))
      | _ => true
      end && chat_before_message (execute q d) rest
  end.

(** In [qs], every insert of a message comes after an upsert of its
    chat ([seen] are the chats upserted so far). *)
Fixpoint upsert_first (seen : list Z) (qs : list Sql) : bool :=
  match qs with
  | [] => true
  | sql_add_chat c _ _ :: rest => upsert_first (c :: seen) rest
  | sql_add_message c _ _ _ _ _ :: rest =>
      bool_decide (c ∈ seen) && upsert_first seen rest
  | _ :: rest => upsert_first seen rest
  end.

(** The chats upserted by a list of statements. *)
Definition upserts (qs : list Sql) : list Z :=
  omap (λ q, match q with sql_add_chat c _ _ => Some c | _ => None end) qs.

(** The rows [r] added to [messages]: all of them satisfy [P] and the
    rows that were there are untouched. *)
Definition stores_only {A} (P : message_row → Prop) (w : World) (r : Run A)
    : Prop :=
  ∃ new, messages (db (final r)) = (messages (db w) ++ new)%list
         ∧ Forall P new.

(** The coroutine [f] does in [w] what it does when the table [users]
    holds anything else, and leaves that table alone. *)
Definition blind_to_users {A} (f : Co A) (w : World) : Prop :=
  ∀ u : gmap Z user_row,
    f (with_db (with_users u (db w)) w)
    = mkRun (outcome (f w))
        (with_db (with_users u (db (final (f w)))) (final (f w)))
        (trace (f w)).

(** A reply on the business relay: [bot.send_message] with the id of
    the connection and the message replied to. *)
Definition relayed (m : Message) (o : Out) : Prop :=
  ∃ t, o = send_message (c_id (chat m)) t (business_connection_id m)
             (message_id m).

(** Every stored analysis is the analysis of a chat that has a stored
    message. *)
Definition analyses_have_history (d : Database) : Prop :=
  Forall (λ a, ∃ m, m ∈ messages d ∧ a_chat_id a = Some (m_chat_id m))
    (analysis_results d).

(** The lifecycle events that switch connection [c] on. *)
Definition enables (c : string) (ev : Event) : bool :=
  match ev with
  | business_connection b => is_enabled b && String.eqb (bcn_id b) c
  | _ => false
  end.

End bot.

(** ** bot.py: the keyboards *)

(** The functions behind the constructors of [bot.Keyboard]: the rows
    of buttons, each with its label and the [callback_data] it sends
    back when pressed. *)
Module keyboards.

Record InlineKeyboardButton := {
  text : string;
  callback_data : string
}.

Definition InlineKeyboardMarkup : Type := list (list InlineKeyboardButton).


Definition get_chat_actions_keyboard (chat_id : Z) : InlineKeyboardMarkup :=
  [ [{| text := "📊 Резюме";
        callback_data := "analyze_summary_" ++ py_str chat_id |}];
    [{| text := "💡 Инсайты";
        callback_data := "analyze_insights_" ++ py_str chat_id |}];
    [{| text := "📝 Темы";
        callback_data := "analyze_topics_" ++ py_str chat_id |}];
    [{| text := "😊 Тональность";
        callback_data := "analyze_sentiment_" ++ py_str chat_id |}];
    [{| text := "❓ Свой вопрос";
        callback_data := "analyze_custom_" ++ py_str chat_id |}];
    [{| text := "⚙️ Настройки чата";
        callback_data := "chat_settings_" ++ py_str chat_id |}];
    [{| text := "◀️ Назад"; callback_data := "back_to_menu" |}] ].



(** The [callback_data] of the buttons of a keyboard, row after row. *)
Definition payloads (k : InlineKeyboardMarkup) : list string :=
  callback_data <$> List.concat k.

End keyboards.

(** ** Scenarios: concrete users, chats and collaborators *)

Module scenario.
Import database bot.

Definition alice : User :=
  {| u_id := 1; u_username := Some "alice"; u_first_name := Some "Alice";
     u_last_name := None |}.

(** User 42 never sent [/start]. *)
Definition stranger : User :=
  {| u_id := 42; u_username := None; u_first_name := Some "Eve";
     u_last_name := None |}.

Definition private_chat : Chat :=
  {| c_id := 7; c_type := "private"; c_title := None;
     c_first_name := Some "Alice" |}.

Definition text_from (u : option User) (t : string) : Message :=
  {| message_id := 10; from_user := u; chat := private_chat; date := 1000;
     text := Some t; voice := None; business_connection_id := None |}.

Definition voice_from (u : option User) : Message :=
  {| message_id := 11; from_user := u; chat := private_chat; date := 2000;
     text := None; voice := Some {| file_id := "abc" |};
     business_connection_id := None |}.

Definition business (m : Message) : Message :=
  {| message_id := message_id m; from_user := from_user m; chat := chat m;
     date := date m; text := text m; voice := voice m;
     business_connection_id := Some "biz1" |}.

Definition press (data : string) (u : User) : CallbackQuery :=
  {| cq_data := data; cq_from_user := u; cq_chat_id := 7 |}.

Definition biz1 (enabled : bool) : BusinessConnection :=
  {| bcn_id := "biz1"; bcn_user := alice; bcn_user_chat_id := 7;
     is_enabled := enabled |}.

(** No update of the scenarios holds text outside ASCII: the Unicode
    tables are never asked. *)
Definition never_asked : string → option Z := λ _, None.

(** Every collaborator answers. *)
Definition all_well : Env :=
  {| get_file := λ f, inr ("voice/" ++ f);
     download_file := λ _ _, None;
     transcribe_audio := λ _, inr "hello world";
     analyze_messages := λ _ _, inr "a summary";
     custom_analysis := λ _ _, inr "an answer";
     transport := λ _, None;
     int_unicode := never_asked |}.

(** The transcription service fails. *)
Definition whisper_down : Env :=
  {| get_file := λ f, inr ("voice/" ++ f);
     download_file := λ _ _, None;
     transcribe_audio := λ _, inl (ExternalError "whisper: timeout");
     analyze_messages := λ _ _, inr "a summary";
     custom_analysis := λ _ _, inr "an answer";
     transport := λ _, None;
     int_unicode := never_asked |}.

(** The transport refuses the "transcribing" notice. *)
Definition notice_refused : Env :=
  {| get_file := λ f, inr ("voice/" ++ f);
     download_file := λ _ _, None;
     transcribe_audio := λ _, inr "hello world";
     analyze_messages := λ _ _, inr "a summary";
     custom_analysis := λ _ _, inr "an answer";
     transport := λ o,
       match o with
       | message_answer _ txt_transcribing _ =>
           Some (ExternalError "Forbidden: bot was blocked by the user")
       | _ => None
       end;
     int_unicode := never_asked |}.

(** The analysis service fails. *)
Definition analysis_down : Env :=
  {| get_file := λ f, inr ("voice/" ++ f);
     download_file := λ _ _, None;
     transcribe_audio := λ _, inr "hello world";
     analyze_messages := λ _ _, inl (ExternalError "analysis: quota");
     custom_analysis := λ _ _, inl (ExternalError "analysis: quota");
     transport := λ _, None;
     int_unicode := never_asked |}.

(** A fresh store, no file, no pending query. *)
Definition fresh : World :=
  {| db := empty_db; files := ∅; state := idle |}.

(** Alice started the bot, wrote in her chat, and switched the
    transcription of the chat off. *)
Definition muted : World :=
  final (poll all_well
           [command_start (text_from (Some alice) "/start");
            text_message (text_from (Some alice) "hi");
            callback_query (press "toggle_transcription_7" alice)] fresh).

(** Alice started the bot and wrote in her chat. *)
Definition chatting : World :=
  final (poll all_well
           [command_start (text_from (Some alice) "/start");
            text_message (text_from (Some alice) "hi")] fresh).

(** The business connection ["biz1"] is active. *)
Definition connected : World :=
  final (poll all_well [business_connection (biz1 true)] fresh).

(** Alice started the bot and connected her business account. *)
Definition serving : World :=
  final (poll all_well
           [command_start (text_from (Some alice) "/start");
            business_connection (biz1 true)] fresh).

(** The connection ["biz1"] was switched off, and Alice wrote since. *)
Definition events_after_disable : list Event :=
  [text_message (text_from (Some alice) "hi");
   callback_query (press "settings" alice)].

(** Alice chose the custom analysis of chat 9, which has no message. *)
Definition asked : World :=
  final (poll all_well
           [command_start (text_from (Some alice) "/start");
            text_message (text_from (Some alice) "hi");
            callback_query (press "analyze_custom_9" alice)] fresh).

(** The transport refuses every call. *)
Definition refusing : Env :=
  {| get_file := λ f, inr ("voice/" ++ f);
     download_file := λ _ _, None;
     transcribe_audio := λ _, inr "hello world";
     analyze_messages := λ _ _, inr "a summary";
     custom_analysis := λ _ _, inr "an answer";
     transport := λ _,
       Some (ExternalError "Forbidden: bot was blocked by the user");
     int_unicode := never_asked |}.

(** Alice's client sent callback data of its own making: the custom
    analysis of a chat whose id no BIGINT holds. *)
Definition asked_far : World :=
  final (poll all_well
           [command_start (text_from (Some alice) "/start");
            text_message (text_from (Some alice) "hi");
            callback_query
              (press "analyze_custom_99999999999999999999" alice)] fresh).

(** Alice chose the custom analysis of her own chat, which has one
    message. *)
Definition asked_about_7 : World :=
  final (poll all_well
           [command_start (text_from (Some alice) "/start");
            text_message (text_from (Some alice) "hi");
            callback_query (press "analyze_custom_7" alice)] fresh).

End scenario.

(** * Properties *)

Import database bot.
Local Open Scope list_scope.

(** ** Symbolic execution of a handler *)

Ltac co_unfold :=
  unfold db_get_chat, db_get_chat_messages;
  unfold mbind, co_bind, mret, co_ret;
  unfold bind, try_except, query, execute_sql, attr, item, int, send, call,
    download, get_state, get_data, set_state, update_data, clear,
    os_path_exists, remove;
  unfold ret, raise.

Ltac co_simpl :=
  cbn beta iota zeta delta
    [outcome final trace db files state with_db with_files with_state
     app negb] in *.

Ltac case_step :=
  match goal with
  | |- context [match ?x with _ => _ end] =>
      lazymatch x with
      | context [match _ with _ => _ end] => fail
      | _ => destruct x eqn:?
      end
  end.

Ltac co_run := co_unfold; repeat (co_simpl; case_step); co_simpl.

(** What [py_int] reads is ASCII text. *)
Lemma is_digit_ascii (c : ascii) :
  is_digit c = true → (nat_of_ascii c <? 128)%nat = true.
Proof. destruct c as [[] [] [] [] [] [] [] []]; by vm_compute. Qed.

Lemma is_space_ascii (c : ascii) :
  is_space c = true → (nat_of_ascii c <? 128)%nat = true.
Proof. destruct c as [[] [] [] [] [] [] [] []]; by vm_compute. Qed.

Lemma spaces_ascii (s : string) :
  forallb is_space (list_ascii_of_string s) = true → ascii_only s = true.
Proof.
  unfold ascii_only. induction s as [|c r IH]; [done|]. cbn [list_ascii_of_string forallb].
  intros [Hc Hr]%andb_true_iff.
  by rewrite (is_space_ascii c Hc), (IH Hr).
Qed.

Lemma digits_ascii (s : string) (acc n : Z) :
  digits s acc = Some n → ascii_only s = true.
Proof.
  revert acc. induction s as [|c r IH]; intros acc; [done|].
  cbn [digits]. destruct (is_digit c) eqn:Hc.
  - intros Hr%IH. unfold ascii_only in *. cbn [list_ascii_of_string forallb].
    by rewrite (is_digit_ascii c Hc), Hr.
  - destruct (forallb is_space (list_ascii_of_string (String c r))) eqn:Hsp;
      [|done].
    intros _. by apply spaces_ascii.
Qed.

Lemma unsigned_ascii (s : string) (n : Z) :
  unsigned s = Some n → ascii_only s = true.
Proof.
  unfold unsigned. destruct s as [|c r]; [done|].
  destruct (is_digit c); [apply digits_ascii | done].
Qed.

Lemma lstrip_ascii (s : string) :
  ascii_only (lstrip s) = true → ascii_only s = true.
Proof.
  induction s as [|c r IH]; [done|]. cbn [lstrip].
  destruct (is_space c) eqn:Hc; [|done].
  intros Hr%IH. unfold ascii_only in *. cbn [list_ascii_of_string forallb].
  by rewrite (is_space_ascii c Hc), Hr.
Qed.

Lemma py_int_ascii (s : string) (n : Z) :
  py_int s = Some n → ascii_only s = true.
Proof.
  unfold py_int. intros Hn. apply lstrip_ascii.
  destruct (lstrip s) as [|c r]; [done|].
  destruct (Ascii.eqb_spec c "-") as [->|Hminus].
  { destruct (unsigned r) as [k|] eqn:Hr; [|done].
    apply unsigned_ascii in Hr. unfold ascii_only in *.
    by cbn [list_ascii_of_string forallb]. }
  destruct (Ascii.eqb_spec c "+") as [->|Hplus].
  { apply unsigned_ascii in Hn. unfold ascii_only in *.
    by cbn [list_ascii_of_string forallb]. }
  apply (unsigned_ascii _ n).
  destruct c as [[] [] [] [] [] [] [] []]; done.
Qed.

Ltac ascii_hyp :=
  repeat match goal with
         | H : py_int ?p = Some _ |- _ =>
             lazymatch goal with
             | _ : ascii_only p = true |- _ => fail
             | _ => pose proof (py_int_ascii _ _ H)
             end
         end.

(** ** The store *)

Lemma is_transcription_enabled_unknown c d :
  chats d !! c = None → is_transcription_enabled c d = true.
Proof. unfold is_transcription_enabled, get_chat. by intros ->. Qed.

Lemma is_transcription_enabled_false c d :
  is_transcription_enabled c d = false → is_Some (chats d !! c).
Proof.
  unfold is_transcription_enabled, get_chat.
  destruct (chats d !! c); [eauto | discriminate].
Qed.

Lemma set_transcription_enabled_unknown c b d :
  chats d !! c = None → set_transcription_enabled c b d = d.
Proof.
  unfold set_transcription_enabled. intros ->. by destruct d.
Qed.

Lemma db_eta d :
  {| users := users d; chats := chats d; messages := messages d;
     business_connections := business_connections d;
     analysis_results := analysis_results d |} = d.
Proof. by destruct d. Qed.

(** No statement of the program removes a row of
    [business_connections]. *)
Lemma execute_keeps_connections q d c :
  is_Some (business_connections d !! c) →
  is_Some (business_connections (execute q d) !! c).
Proof.
  intros Hc. destruct q; simpl; try done.
  - destruct (decide (connection_id = c)) as [->|Hne].
    + rewrite lookup_insert_eq. eauto.
    + by rewrite lookup_insert_ne.
  - destruct (business_connections d !! connection_id) eqn:Hrow; [|done].
    destruct (decide (connection_id = c)) as [->|Hne].
    + rewrite lookup_insert_eq. eauto.
    + by rewrite lookup_insert_ne.
Qed.

(** C4, the counterexample: on a chat id without a row, setting the flag
    to false and reading it back gives true. *)
Lemma set_transcription_enabled_no_row :
  chats empty_db !! 5%Z = None
  ∧ is_transcription_enabled 5 (set_transcription_enabled 5 false empty_db)
    = true.
Proof. by vm_compute. Qed.

(** C4, amended: [set_transcription_enabled] is an UPDATE.  Reading the
    flag right after setting it to [b] gives [b] when the chat has a
    row; when it has none, the statement changes nothing and the read
    gives the default, true.  Setting twice is setting once. *)
Theorem set_then_is_transcription_enabled (c : Z) (b : bool) (d : Database) :
  is_transcription_enabled c (set_transcription_enabled c b d)
  = match chats d !! c with Some _ => b | None => true end
  ∧ set_transcription_enabled c b (set_transcription_enabled c b d)
    = set_transcription_enabled c b d
  ∧ match chats d !! c with
    | Some _ => True
    | None => set_transcription_enabled c b d = d
              ∧ is_transcription_enabled c d = true
    end.
Proof.
  unfold is_transcription_enabled, set_transcription_enabled, get_chat,
    with_chats.
  destruct (chats d !! c) as [row|] eqn:Hrow; simpl.
  - rewrite !lookup_insert_eq. simpl. rewrite insert_insert_eq. done.
  - rewrite !Hrow. rewrite db_eta. done.
Qed.

(** C7: a lifecycle event with [is_enabled] false keeps the row of the
    connection and sets its [is_active] to false; one with [is_enabled]
    true leaves a row with [is_active] true, created or overwritten; the
    other rows are as they were, and no row disappears. *)
Theorem business_connection_is_soft_deleted
    (b : BusinessConnection) (w : World) :
  let before := business_connections (db w) in
  let after :=
    business_connections (db (final (handle_business_connection b w))) in
  after !! bcn_id b
  = (if is_enabled b
     then Some {| bc_user_id := u_id (bcn_user b);
                  bc_user_chat_id := bcn_user_chat_id b;
                  is_active := true |}
     else (λ row, {| bc_user_id := bc_user_id row;
                     bc_user_chat_id := bc_user_chat_id row;
                     is_active := false |}) <$> before !! bcn_id b)
  ∧ (∀ c, c ≠ bcn_id b → after !! c = before !! c)
  ∧ (∀ c, is_Some (before !! c) → is_Some (after !! c)).
Proof.
  unfold handle_business_connection.
  destruct (is_enabled b); co_run; simpl.
  - split_and!.
    + by rewrite lookup_insert_eq.
    + intros c Hc. by rewrite lookup_insert_ne.
    + intros c Hc.
      by apply (execute_keeps_connections
                  (sql_add_business_connection _ _ _)).
  - split_and!.
    + destruct (business_connections (db w) !! bcn_id b) eqn:Hrow; simpl;
        [by rewrite lookup_insert_eq | done].
    + intros c Hc.
      destruct (business_connections (db w) !! bcn_id b); simpl;
        [by rewrite lookup_insert_ne | done].
    + intros c Hc.
      by apply (execute_keeps_connections (sql_remove_business_connection _)).
Qed.

(** ** The handlers, run symbolically *)

Ltac handlers_unfold :=
  unfold handle, dispatch_callback, cmd_start, cmd_menu, handle_voice,
    handle_text, callback_back_to_menu, callback_list_private,
    callback_list_groups, callback_list_channels, callback_settings,
    callback_stub, callback_chat_actions, callback_chat_settings,
    callback_toggle_transcription, callback_analyze, chat_id_of,
    handle_business_connection, handle_business_voice, handle_business_text.

(** The store a handler leaves is the store it found after the
    statements of its trace. *)
Lemma handle_replays E ev w :
  db (final (handle E ev w))
  = replay (db w) (statements (trace (handle E ev w))).
Proof. destruct ev; handlers_unfold; co_run; reflexivity. Qed.

Lemma poll_cons E ev rest w :
  final (poll E (ev :: rest) w) = final (poll E rest (final (handle E ev w)))
  ∧ trace (poll E (ev :: rest) w)
    = trace (handle E ev w) ++ trace (poll E rest (final (handle E ev w))).
Proof.
  cbn [poll]. unfold mbind, co_bind, bind, try_except, mret, co_ret, ret.
  destruct (handle E ev w) as [[e|[]] w1 t1]; simpl;
    destruct (poll E rest w1) as [o w2 t2]; simpl;
    by rewrite ?app_nil_r.
Qed.

Lemma statements_app t1 t2 :
  statements (t1 ++ t2) = statements t1 ++ statements t2.
Proof. unfold statements. apply omap_app. Qed.

Lemma replay_app d q1 q2 : replay d (q1 ++ q2) = replay (replay d q1) q2.
Proof. unfold replay. apply foldl_app. Qed.

Lemma poll_replays E evs w :
  db (final (poll E evs w)) = replay (db w) (statements (trace (poll E evs w))).
Proof.
  revert w. induction evs as [|ev rest IH]; intros w; [done|].
  destruct (poll_cons E ev rest w) as [-> ->].
  by rewrite IH, statements_app, replay_app, <- handle_replays.
Qed.

(** ** Business connections *)

Lemma get_business_connection_removed c d :
  get_business_connection c (remove_business_connection c d) = None.
Proof.
  unfold get_business_connection, remove_business_connection. simpl.
  destruct (business_connections d !! c) eqn:Hrow.
  - by rewrite lookup_insert_eq.
  - by rewrite Hrow.
Qed.

(** A connection the lookup does not return stays so through every
    event but the lifecycle event that switches it on. *)
Lemma handle_keeps_disabled E ev w c :
  enables c ev = false →
  get_business_connection c (db w) = None →
  get_business_connection c (db (final (handle E ev w))) = None.
Proof.
  intros Hev Hc. destruct ev;
    try (handlers_unfold; co_run; exact Hc).
  unfold handle, handle_business_connection. simpl in Hev.
  destruct (is_enabled connection) eqn:Hen; co_run;
    unfold get_business_connection in *; simpl.
  - simpl in Hev. apply String.eqb_neq in Hev.
    by rewrite lookup_insert_ne.
  - destruct (business_connections (db w) !! bcn_id connection) eqn:Hrow;
      [|done].
    destruct (decide (bcn_id connection = c)) as [->|Hne].
    + by rewrite lookup_insert_eq.
    + by rewrite lookup_insert_ne.
Qed.

Lemma poll_keeps_disabled E evs w c :
  forallb (λ ev, negb (enables c ev)) evs = true →
  get_business_connection c (db w) = None →
  get_business_connection c (db (final (poll E evs w))) = None.
Proof.
  revert w. induction evs as [|ev rest IH]; intros w Hevs Hc; [done|].
  simpl in Hevs. apply andb_true_iff in Hevs as [Hev Hrest].
  destruct (poll_cons E ev rest w) as [-> _].
  apply IH; [done|]. apply handle_keeps_disabled; [|done].
  by destruct (enables c ev).
Qed.

(** A business message whose connection the lookup does not return is
    dropped: the handler returns, the world is as it was, and nothing
    was done. *)
Lemma business_message_dropped E m w c :
  business_connection_id m = Some c →
  get_business_connection c (db w) = None →
  handle_business_voice E m w = mkRun (inr ()) w []
  ∧ handle_business_text m w = mkRun (inr ()) w [].
Proof.
  intros Hid Hc. unfold handle_business_voice, handle_business_text.
  rewrite Hid. simpl.
  destruct c; simpl; [done|]. co_run; first [done | congruence].
Qed.

(** C9: once a lifecycle event has switched a connection off, a business
    text or voice message that carries its id is dropped, whatever
    events were handled in between, as long as none of them switched
    the connection on again: the handler returns without a statement
    against the store, a download, a call of the transcription service
    or a reply, and leaves the world as it found it. *)
Theorem business_message_after_disable_is_dropped
    (E : Env) (b : BusinessConnection) (evs : list Event) (m : Message)
    (w : World) :
  is_enabled b = false →
  forallb (λ ev, negb (enables (bcn_id b) ev)) evs = true →
  business_connection_id m = Some (bcn_id b) →
  let w' := final (poll E (business_connection b :: evs) w) in
  get_business_connection (bcn_id b) (db w') = None
  ∧ handle_business_voice E m w' = mkRun (inr ()) w' []
  ∧ handle_business_text m w' = mkRun (inr ()) w' [].
Proof.
  intros Hoff Hevs Hid w'.
  assert (get_business_connection (bcn_id b) (db w') = None) as Hnone.
  { subst w'. destruct (poll_cons E (business_connection b) evs w) as [-> _].
    apply poll_keeps_disabled; [done|].
    unfold handle, handle_business_connection. rewrite Hoff. co_run.
    apply get_business_connection_removed. }
  split; [done|]. by apply business_message_dropped with (c := bcn_id b).
Qed.

(** ** Chats and messages *)

Ltac negb_hyps :=
  repeat match goal with
    | H : negb _ = true |- _ => apply negb_true_iff in H
    | H : negb _ = false |- _ => apply negb_false_iff in H
    end.

Lemma add_chat_lookup c t ti d : is_Some (chats (add_chat c t ti d) !! c).
Proof. unfold add_chat. simpl. rewrite lookup_insert_eq. eauto. Qed.

(** C2, the counterexample: Alice's chat has its transcription
    switched off.  Her voice message is stored, and the one statement
    its handler issues is the insert: no upsert of the chat comes
    before it.  The row of the chat is the one her text message
    upserted. *)
Lemma muted_voice_is_stored_without_upsert :
  let r := handle_voice scenario.all_well
             (scenario.voice_from (Some scenario.alice)) scenario.muted in
  outcome r = inr ()
  ∧ statements (trace r) = [sql_add_message 7 1 None 2000 true None]
  ∧ upsert_first [] (statements (trace r)) = false
  ∧ messages (db (final r))
    = messages (db scenario.muted)
      ++ [{| m_chat_id := 7; m_user_id := 1; message_text := None;
             message_date := 2000; is_voice := true; transcription := None |}]
  ∧ chats (db (final r)) = chats (db scenario.muted)
  ∧ is_Some (chats (db scenario.muted) !! 7%Z).
Proof. split_and!; [by vm_compute..|vm_compute; eauto]. Qed.

(** Whatever the event and the state of the world, the chat has a row
    at the moment its message is inserted. *)
Lemma handle_chat_before_message (E : Env) (ev : Event) (w : World) :
  chat_before_message (db w) (statements (trace (handle E ev w))) = true.
Proof.
  destruct ev; handlers_unfold; co_run; negb_hyps; simpl.
  all: try reflexivity.
  all: rewrite andb_true_r; apply bool_decide_eq_true.
  all: first [ rewrite lookup_insert_eq; eauto
             | by apply is_transcription_enabled_false ].
Qed.

(** C2, amended: whatever the event and the state of the world, the
    chat has a row at the moment its message is inserted.  The handler
    upserts the chat itself before it inserts the message, except when
    a voice message, plain or business, arrives in a chat whose
    transcription is switched off: then the insert is the one
    statement the handler issues, and the row is the one whose flag it
    has just read. *)
Theorem chat_row_exists_when_message_is_stored
    (E : Env) (ev : Event) (w : World) :
  let qs := statements (trace (handle E ev w)) in
  chat_before_message (db w) qs = true
  ∧ (upsert_first [] qs = true
     ∨ ∃ m u, (ev = voice_message m ∨ ev = business_voice m)
              ∧ is_transcription_enabled (c_id (chat m)) (db w) = false
              ∧ is_Some (chats (db w) !! c_id (chat m))
              ∧ qs = [sql_add_message (c_id (chat m)) u None (date m)
                        true None]).
Proof.
  destruct ev; handlers_unfold; co_run; negb_hyps; simpl.
  all: try (split; [reflexivity | left; reflexivity]).
  all: try (split;
            [ rewrite andb_true_r; apply bool_decide_eq_true;
              rewrite lookup_insert_eq; eauto
            | left; rewrite andb_true_r; apply bool_decide_eq_true;
              set_solver ]).
  all: (split;
        [ rewrite andb_true_r; apply bool_decide_eq_true;
          by apply is_transcription_enabled_false
        | right; eexists message, _;
          split_and!; eauto using is_transcription_enabled_false ]).
Qed.

(** *** Over a whole run *)

Lemma upsert_first_app seen qs1 qs2 :
  upsert_first seen (qs1 ++ qs2)
  = upsert_first seen qs1
    && upsert_first (reverse (upserts qs1) ++ seen) qs2.
Proof.
  revert seen. induction qs1 as [|q qs1 IH]; intros seen; [done|].
  destruct q; simpl; rewrite ?IH; try done.
  - by rewrite reverse_cons, <- app_assoc.
  - by rewrite andb_assoc.
Qed.

(** Only an upsert of a chat gives a chat a row. *)
Lemma chats_of_replay qs d c :
  is_Some (chats (replay d qs) !! c) →
  is_Some (chats d !! c) ∨ c ∈ upserts qs.
Proof.
  revert d. induction qs as [|q qs IH]; intros d Hc; [by left|].
  apply IH in Hc as [Hc|Hc];
    [|right; destruct q; simpl; first [done | by apply list_elem_of_further]].
  destruct q; simpl in *; try (by left).
  - destruct (decide (chat_id = c)) as [->|Hne]; [right; set_solver|].
    left. by rewrite lookup_insert_ne in Hc.
  - left. destruct (chats d !! chat_id) eqn:Hrow; [|done].
    destruct (decide (chat_id = c)) as [->|Hne]; [by rewrite Hrow|].
    by rewrite lookup_insert_ne in Hc.
Qed.

(** If the chats that have a row were upserted before, a handler
    inserts no message whose chat was not upserted before. *)
Lemma handle_upserts_first E ev w seen :
  (∀ c, is_Some (chats (db w) !! c) → c ∈ seen) →
  upsert_first seen (statements (trace (handle E ev w))) = true.
Proof.
  intros Hseen. destruct ev; handlers_unfold; co_run; negb_hyps; simpl.
  all: try reflexivity.
  all: rewrite andb_true_r; apply bool_decide_eq_true.
  all: first [ by apply list_elem_of_here
             | by apply Hseen, is_transcription_enabled_false ].
Qed.

(** In a run that starts from a store without chats, every insert of a
    message comes after an upsert of its chat, by the same handler or
    by an earlier one. *)
Lemma poll_upserts_first E evs w seen :
  (∀ c, is_Some (chats (db w) !! c) → c ∈ seen) →
  upsert_first seen (statements (trace (poll E evs w))) = true.
Proof.
  revert w seen. induction evs as [|ev rest IH]; intros w seen Hseen; [done|].
  destruct (poll_cons E ev rest w) as [_ ->].
  rewrite statements_app, upsert_first_app, handle_upserts_first by done.
  apply IH. intros c Hc. rewrite handle_replays in Hc.
  apply chats_of_replay in Hc as [Hc|Hc].
  - apply elem_of_app. right. by apply Hseen.
  - apply elem_of_app. left. by apply elem_of_reverse.
Qed.

Lemma chat_before_message_app d qs1 qs2 :
  chat_before_message d (qs1 ++ qs2)
  = chat_before_message d qs1 && chat_before_message (replay d qs1) qs2.
Proof.
  revert d. induction qs1 as [|q qs1 IH]; intros d; [done|].
  simpl. by rewrite IH, andb_assoc.
Qed.

Lemma poll_chat_before_message E evs w :
  chat_before_message (db w) (statements (trace (poll E evs w))) = true.
Proof.
  revert w. induction evs as [|ev rest IH]; intros w; [done|].
  destruct (poll_cons E ev rest w) as [_ ->].
  rewrite statements_app, chat_before_message_app, <- handle_replays, IH.
  by rewrite handle_chat_before_message.
Qed.

(** Over a run of the bot that starts on a fresh store, whatever the
    events and the answers of the collaborators, each insert of a
    message comes after an upsert of the chat of that message, by the
    same handler or by an earlier one, and the chat has a row at the
    moment of the insert. *)
Lemma chat_upsert_precedes_message_insert
    (E : Env) (evs : list Event) (f : gset string) (s : FSMContext) :
  let w := {| db := empty_db; files := f; state := s |} in
  let qs := statements (trace (poll E evs w)) in
  upsert_first [] qs = true ∧ chat_before_message empty_db qs = true.
Proof.
  intros w qs. subst qs. split.
  - apply poll_upserts_first. intros c [row Hrow].
    simpl in Hrow. by rewrite lookup_empty in Hrow.
  - apply (poll_chat_before_message E evs w).
Qed.

Ltac stores_nothing := exists []; split; [by rewrite app_nil_r | constructor].
Ltac stores_one :=
  eexists [_]; split; [reflexivity | repeat constructor; done].

(** C10: a row a business handler adds to [messages] has the id of the
    sender of the message as its [user_id] when the message has a
    sender, and 0 when it has none; it is the row of the chat of the
    message.  On an active connection the row is added: by a text
    message always; by a voice message at once when the transcription
    of the chat is switched off, and with its transcription when the
    file is fetched and transcribed, whatever the transport then does
    with the reply. *)
Theorem business_message_sender (E : Env) (m : Message) (w : World) :
  let uid := match from_user m with Some user => u_id user | None => 0%Z end in
  let from_sender row := m_user_id row = uid ∧ m_chat_id row = c_id (chat m) in
  stores_only from_sender w (handle_business_voice E m w)
  ∧ stores_only from_sender w (handle_business_text m w)
  ∧ (truthy (business_connection_id m) = true →
     is_Some (get_business_connection
                (default "" (business_connection_id m)) (db w)) →
     messages (db (final (handle_business_text m w)))
     = messages (db w)
       ++ [{| m_chat_id := c_id (chat m); m_user_id := uid;
              message_text := text m; message_date := date m;
              is_voice := false; transcription := None |}])
  ∧ (truthy (business_connection_id m) = true →
     is_Some (get_business_connection
                (default "" (business_connection_id m)) (db w)) →
     (is_transcription_enabled (c_id (chat m)) (db w) = false →
      messages (db (final (handle_business_voice E m w)))
      = messages (db w)
        ++ [{| m_chat_id := c_id (chat m); m_user_id := uid;
               message_text := None; message_date := date m;
               is_voice := true; transcription := None |}])
     ∧ (∀ v file_path transcription,
          is_transcription_enabled (c_id (chat m)) (db w) = true →
          voice m = Some v →
          get_file E (file_id v) = inr file_path →
          download_file E file_path (voice_path_of v) = None →
          transcribe_audio E (voice_path_of v) = inr transcription →
          messages (db (final (handle_business_voice E m w)))
          = messages (db w)
            ++ [{| m_chat_id := c_id (chat m); m_user_id := uid;
                   message_text := None; message_date := date m;
                   is_voice := true;
                   transcription := Some transcription |}])).
Proof.
  intros uid from_sender. subst uid from_sender. unfold stores_only.
  split_and!.
  - unfold handle_business_voice, sender_id. co_run; simpl;
      first [stores_nothing | stores_one].
  - unfold handle_business_text, sender_id. co_run; simpl;
      first [stores_nothing | stores_one].
  - intros Hid [row Hrow]. unfold handle_business_text, sender_id.
    co_run; negb_hyps; simpl; first [reflexivity | congruence].
  - intros Hid [row Hrow]. split.
    + intros Hoff. unfold handle_business_voice, sender_id.
      co_run; negb_hyps; simpl; first [reflexivity | congruence].
    + intros v file_path transcription Hon Hv Hfile Hdl Htr.
      unfold handle_business_voice, sender_id. rewrite Hv.
      co_run; negb_hyps; simplify_eq; simpl; first [reflexivity | congruence].
Qed.

(** The sender is absent: the stored row has [user_id] 0. *)
Example business_text_without_sender :
  messages (db (final (handle_business_text
                         (scenario.business (scenario.text_from None "hello"))
                         scenario.connected)))
  = [{| m_chat_id := 7; m_user_id := 0; message_text := Some "hello";
        message_date := 1000; is_voice := false; transcription := None |}].
Proof. by vm_compute. Qed.

(** The sender is absent and the chat is muted: the voice message is
    stored with [user_id] 0. *)
Example business_voice_without_sender :
  let w := final (handle_business_connection (scenario.biz1 true)
                    scenario.muted) in
  messages (db (final (handle_business_voice scenario.all_well
                         (scenario.business (scenario.voice_from None)) w)))
  = messages (db scenario.muted)
    ++ [{| m_chat_id := 7; m_user_id := 0; message_text := None;
           message_date := 2000; is_voice := true; transcription := None |}].
Proof. by vm_compute. Qed.

(** The sender is present: the stored row has the sender's id. *)
Example business_voice_with_sender :
  messages (db (final (handle_business_voice scenario.all_well
                         (scenario.business
                            (scenario.voice_from (Some scenario.stranger)))
                         scenario.connected)))
  = [{| m_chat_id := 7; m_user_id := 42; message_text := None;
        message_date := 2000; is_voice := true;
        transcription := Some "hello world" |}].
Proof. by vm_compute. Qed.

(** ** Authorization *)



(** ** Voice messages in a chat whose transcription is switched off *)

(** C5, the counterexample: the chat is switched off and the sender is
    not authorized; no message is appended. *)
Lemma unauthorized_voice_in_muted_chat :
  is_transcription_enabled 7 (db scenario.muted) = false
  ∧ messages (db (final (handle_voice scenario.all_well
                           (scenario.voice_from (Some scenario.stranger))
                           scenario.muted)))
    = messages (db scenario.muted).
Proof. by vm_compute. Qed.

(** C5, amended: when the chat of a voice message has
    [transcription_enabled] false, neither voice handler calls the
    transcription service or downloads the payload.  If the message
    passes the gate of its handler (an authorized sender on the direct
    path, an active connection on the business path), the handler
    appends one message with [is_voice] true and no transcription, and
    does nothing else.  If it does not, no message is appended. *)
Theorem voice_in_muted_chat (E : Env) (m : Message) (w : World) :
  is_transcription_enabled (c_id (chat m)) (db w) = false →
  let quiet ef := is_transcription_call ef = false ∧ is_download ef = false in
  let stored uid :=
    mkRun (inr ())
      (with_db (add_message (c_id (chat m)) uid None (date m) true None (db w))
         w)
      [db_execute (sql_add_message (c_id (chat m)) uid None (date m) true None)]
  in
  Forall quiet (trace (handle_voice E m w))
  ∧ Forall quiet (trace (handle_business_voice E m w))
  ∧ (∀ user, from_user m = Some user →
             is_user_authorized (u_id user) (db w) = true →
             handle_voice E m w = stored (u_id user))
  ∧ (truthy (business_connection_id m) = true →
     is_Some (get_business_connection
                (default "" (business_connection_id m)) (db w)) →
     handle_business_voice E m w = stored (sender_id m))
  ∧ (∀ user, from_user m = Some user →
             is_user_authorized (u_id user) (db w) = false →
             messages (db (final (handle_voice E m w))) = messages (db w))
  ∧ (get_business_connection
       (default "" (business_connection_id m)) (db w) = None →
     handle_business_voice E m w = mkRun (inr ()) w []).
Proof.
  intros Hoff quiet stored. subst quiet stored. split_and!.
  - unfold handle_voice.
    co_run; negb_hyps; try congruence; repeat constructor.
  - unfold handle_business_voice.
    co_run; negb_hyps; try congruence; repeat constructor.
  - intros user Hu Hok. unfold handle_voice. rewrite Hu.
    co_run; negb_hyps; try congruence; done.
  - intros Hid [row Hrow]. unfold handle_business_voice.
    co_run; negb_hyps; try congruence; done.
  - intros user Hu Hno. unfold handle_voice. rewrite Hu.
    co_run; negb_hyps; try congruence; done.
  - intros Hnone. unfold handle_business_voice.
    co_run; negb_hyps; try congruence; done.
Qed.

(** ** Analyses *)

Lemma get_chat_messages_none c n d :
  Forall (λ row, m_chat_id row ≠ c) (messages d) →
  get_chat_messages (Some c) n d = [].
Proof.
  intros Hnone. unfold get_chat_messages.
  assert (filter (λ m, m_chat_id m = c) (messages d) = []) as ->.
  { induction Hnone as [|row rows Hrow _ IH]; [done|].
    rewrite filter_cons. by destruct (decide (m_chat_id row = c)). }
  by destruct n.
Qed.

Lemma get_chat_messages_some row c n d :
  row ∈ messages d → m_chat_id row = c →
  get_chat_messages (Some c) (S n) d ≠ [].
Proof.
  intros Hin Hc Hnil. unfold get_chat_messages in Hnil.
  assert (row ∈ filter (λ m, m_chat_id m = c) (messages d)) as Hf
    by (by apply list_elem_of_filter).
  rewrite <- (merge_sort_Permutation newer_first) in Hf.
  destruct (merge_sort newer_first _); [by apply elem_of_nil in Hf | done].
Qed.

Ltac db_simpl :=
  unfold get_chat, execute, set_transcription_enabled, add_analysis_result,
    get_chat_messages;
  cbn beta iota zeta delta
    [users chats messages business_connections analysis_results
     with_users with_chats with_messages with_business_connections
     with_analysis_results db files state with_db with_files with_state
     outcome final trace].

Ltac co_run_db :=
  co_unfold; repeat (co_simpl; db_simpl; case_step); co_simpl; db_simpl.

Ltac bool_hyps :=
  negb_hyps;
  repeat match goal with
    | H : bool_decide _ = true |- _ => apply bool_decide_eq_true in H
    | H : bool_decide _ = false |- _ => apply bool_decide_eq_false in H
    | H : String.eqb _ _ = true |- _ => apply String.eqb_eq in H
    | H : String.eqb _ _ = false |- _ => apply String.eqb_neq in H
    end.

(** C6, the counterexamples: a custom query is pending on a chat
    that has no stored message, and it is still pending after the text
    that answers it: once because the transport refuses the notice,
    once because the id of the chat is beyond int64 and the driver
    refuses the lookup, so that no notice is shown at all. *)
Lemma empty_chat_query_can_stay_pending :
  let m := scenario.text_from (Some scenario.alice) "what happened?" in
  let r := handle_text scenario.refusing m scenario.asked in
  let r' := handle_text scenario.all_well m scenario.asked_far in
  (state_data (state scenario.asked) !! "chat_id"%string = Some 9%Z
   ∧ get_chat_messages (Some 9%Z) 300 (db scenario.asked) = []
   ∧ state_name (state (final r)) = Some waiting_for_custom_query)
  ∧ (state_data (state scenario.asked_far) !! "chat_id"%string
     = Some 99999999999999999999%Z
     ∧ get_chat_messages (Some 99999999999999999999%Z) 300
         (db scenario.asked_far) = []
     ∧ r' = mkRun (inl DataError) scenario.asked_far []
     ∧ state_name (state (final r')) = Some waiting_for_custom_query).
Proof. by vm_compute. Qed.

(** C6, amended: the chat [c] has no stored message.  A press of an
    [analyze_] button for [c], whatever the mode, calls no analysis
    service and adds no row to [analysis_results]; for a fixed mode and
    an id within int64 it shows the notice that there is nothing to
    analyse and does nothing else.  A text that answers a pending
    custom query on [c] calls no analysis service and leaves the store
    as it was; for an id within int64 it shows the same notice and, the
    notice sent, clears the pending query; if the transport refuses the
    notice, the handler ends there and the query is still pending.  For
    an id beyond int64 the driver refuses the lookup: the handler ends
    with that error, nothing is shown, and a pending query stays. *)
Theorem analysis_of_empty_chat (E : Env) (w : World) (c : Z) :
  Forall (λ row, m_chat_id row ≠ c) (messages (db w)) →
  (∀ cb ty p,
     py_split "_" (cq_data cb) !! 1%nat = Some ty →
     py_split "_" (cq_data cb) !! 2%nat = Some p →
     py_int p = Some c →
     let r := callback_analyze E cb w in
     let notice := callback_answer (Some txt_no_messages) true in
     Forall (λ ef, is_analysis_call ef = false) (trace r)
     ∧ analysis_results (db (final r)) = analysis_results (db w)
     ∧ (ty ≠ "custom"%string →
        if int64 c then
          match transport E notice with
          | None => r = mkRun (inr ()) w [show notice]
          | Some e => r = mkRun (inl e) w []
          end
        else r = mkRun (inl DataError) w []))
  ∧ (∀ m user,
       from_user m = Some user →
       state_name (state w) = Some waiting_for_custom_query →
       state_data (state w) !! "chat_id"%string = Some c →
       let r := handle_text E m w in
       let notice := message_answer (c_id (chat m)) txt_no_messages None in
       Forall (λ ef, is_analysis_call ef = false) (trace r)
       ∧ db (final r) = db w
       ∧ if int64 c then
           match transport E notice with
           | None => r = mkRun (inr ()) (with_state idle w) [show notice]
           | Some e => r = mkRun (inl e) w []
           end
         else r = mkRun (inl DataError) w []).
Proof.
  intros Hnone.
  pose proof (get_chat_messages_none c 300 (db w) Hnone) as Hmsgs.
  split.
  - intros cb ty p Hty Hp Hc r notice. subst r notice.
    ascii_hyp. unfold callback_analyze.
    split_and!.
    + co_run; simplify_eq; try congruence; repeat constructor.
    + co_run; simplify_eq; try congruence; done.
    + intros Hfixed.
      co_run; bool_hyps; simplify_eq; simpl in *; try congruence; done.
  - intros m user Hu Hst Hdata r notice. subst r notice.
    unfold handle_text. rewrite Hu.
    split_and!.
    + co_run; bool_hyps; simplify_eq; try congruence; repeat constructor.
    + co_run; bool_hyps; simplify_eq; try congruence; done.
    + co_run; bool_hyps; try rewrite Hdata in *; simplify_eq; simpl in *;
        try congruence; done.
Qed.

(** C8: no callback handler and not the branch of [handle_text] that
    consumes a pending custom query reads the table [users]: each does
    the same whatever that table holds.  So an analysis requested by a
    user who is not authorized goes through: with messages stored for
    the chat and the collaborators answering, the history is fetched,
    the analysis service is called on it, and its result is added to
    [analysis_results] under the id of the requesting user. *)
Theorem analysis_needs_no_authorization (E : Env) (w : World) :
  (∀ cb, blind_to_users (dispatch_callback E cb) w)
  ∧ (∀ m, state_name (state w) = Some waiting_for_custom_query →
          blind_to_users (handle_text E m) w)
  ∧ (∀ cb ty p c history result,
       py_split "_" (cq_data cb) !! 1%nat = Some ty →
       py_split "_" (cq_data cb) !! 2%nat = Some p →
       py_int p = Some c →
       ty ≠ "custom"%string →
       get_chat_messages (Some c) 300 (db w) = history →
       history ≠ [] →
       (∀ o, transport E o = None) →
       analyze_messages E history ty = inr result →
       let r := callback_analyze E cb w in
       call_analyze_messages history ty ∈ trace r
       ∧ analysis_results (db (final r))
         = analysis_results (db w)
           ++ [{| a_chat_id := Some c; a_user_id := u_id (cq_from_user cb);
                  analysis_type := ty; result_text := result |}])
  ∧ (∀ m user c history result,
       from_user m = Some user →
       state_name (state w) = Some waiting_for_custom_query →
       state_data (state w) !! "chat_id"%string = Some c →
       get_chat_messages (Some c) 300 (db w) = history →
       history ≠ [] →
       (∀ o, transport E o = None) →
       custom_analysis E history (text m) = inr result →
       let r := handle_text E m w in
       call_custom_analysis history (text m) ∈ trace r
       ∧ analysis_results (db (final r))
         = analysis_results (db w)
           ++ [{| a_chat_id := Some c; a_user_id := u_id user;
                  analysis_type := "custom"; result_text := result |}]).
Proof.
  split_and!.
  - intros cb u. handlers_unfold. co_run_db; reflexivity.
  - intros m Hst u. unfold handle_text.
    co_run_db; bool_hyps; try congruence; reflexivity.
  - intros cb ty p c history result Hty Hp Hc Hfixed Hh Hsome Hsend Hres r.
    subst r. ascii_hyp. unfold callback_analyze.
    co_run; bool_hyps; simplify_eq; try congruence;
      try (rewrite Hsend in *; discriminate).
    match goal with
    | H : get_chat_messages _ _ _ = _ :: _ |- _ => rewrite H in *
    end.
    simplify_eq. split; [set_solver | simpl; congruence].
  - intros m user c history result Hu Hst Hdata Hh Hsome Hsend Hres r.
    subst r. unfold handle_text. rewrite Hu.
    co_run; bool_hyps; try rewrite Hdata in *; simplify_eq; try congruence;
      try (rewrite Hsend in *; discriminate).
    match goal with
    | H : get_chat_messages _ _ _ = _ :: _ |- _ => rewrite H in *
    end.
    simplify_eq. split; [set_solver | simpl; congruence].
Qed.

(** User 42, who never sent [/start], asks for a summary of Alice's
    chat and gets it. *)
Example stranger_gets_a_summary :
  let r := dispatch_callback scenario.all_well
             (scenario.press "analyze_summary_7" scenario.stranger)
             scenario.chatting in
  is_user_authorized 42 (db scenario.chatting) = false
  ∧ analysis_results (db (final r))
    = [{| a_chat_id := Some 7%Z; a_user_id := 42;
          analysis_type := "summary"; result_text := "a summary" |}]
  ∧ shown (trace r)
    = [edit_text the_callback_message txt_analysing None;
       edit_text the_callback_message (txt_result title_summary "a summary")
         None;
       message_answer 7 txt_choose_action
         (Some (chat_actions_keyboard (Some 7%Z)));
       callback_answer None false].
Proof. by vm_compute. Qed.

(** ** The temporary file of a voice message *)

(** When the transcription service answers, the file is removed before
    the handler goes on. *)
Lemma voice_file_is_removed_on_success
    (E : Env) (m : Message) (user : User) (v : Voice) (w : World)
    (file_path transcription : string) :
  from_user m = Some user →
  is_user_authorized (u_id user) (db w) = true →
  is_transcription_enabled (c_id (chat m)) (db w) = true →
  voice m = Some v →
  get_file E (file_id v) = inr file_path →
  download_file E file_path (voice_path_of v) = None →
  transport E (message_answer (c_id (chat m)) txt_transcribing None) = None →
  transcribe_audio E (voice_path_of v) = inr transcription →
  voice_path_of v ∉ files (final (handle_voice E m w)).
Proof.
  intros Hu Hok Hon Hv Hfile Hdl Hsend Htr.
  unfold handle_voice. rewrite Hu, Hv.
  co_run; bool_hyps; simplify_eq; try congruence;
    rewrite elem_of_difference, elem_of_singleton; tauto.
Qed.

(** C1, on the code: the payload of a voice message was downloaded and
    the transcription service raises.  Either voice handler reports the
    error and returns, the file it downloaded is still there, and it
    never called [os.remove]. *)
Theorem voice_file_is_left_on_failure
    (E : Env) (m : Message) (v : Voice) (w : World)
    (file_path : string) (e : exn) :
  voice m = Some v →
  is_transcription_enabled (c_id (chat m)) (db w) = true →
  get_file E (file_id v) = inr file_path →
  download_file E file_path (voice_path_of v) = None →
  transcribe_audio E (voice_path_of v) = inl e →
  (∀ user,
     from_user m = Some user →
     is_user_authorized (u_id user) (db w) = true →
     transport E (message_answer (c_id (chat m)) txt_transcribing None)
     = None →
     let r := handle_voice E m w in
     voice_path_of v ∈ files (final r)
     ∧ (os_remove (voice_path_of v) ∉ trace r)
     ∧ bot_download_file file_path (voice_path_of v) ∈ trace r)
  ∧ (truthy (business_connection_id m) = true →
     is_Some (get_business_connection
                (default "" (business_connection_id m)) (db w)) →
     let r := handle_business_voice E m w in
     outcome r = inr ()
     ∧ voice_path_of v ∈ files (final r)
     ∧ (os_remove (voice_path_of v) ∉ trace r)
     ∧ bot_download_file file_path (voice_path_of v) ∈ trace r).
Proof.
  intros Hv Hon Hfile Hdl Htr. split.
  - intros user Hu Hok Hsend r. subst r.
    unfold handle_voice. rewrite Hu, Hv.
    co_run; bool_hyps; simplify_eq; try congruence;
      (split_and!; [set_solver | | set_solver]);
      intros Hin; repeat (apply elem_of_cons in Hin as [Hin|Hin]; [done|]);
      by apply elem_of_nil in Hin.
  - intros Hid [row Hrow] r. subst r.
    unfold handle_business_voice. rewrite Hv.
    co_run; bool_hyps; simplify_eq; try congruence;
      (split_and!; [done | set_solver | | set_solver]);
      intros Hin; repeat (apply elem_of_cons in Hin as [Hin|Hin]; [done|]);
      by apply elem_of_nil in Hin.
Qed.

(** The same leak without the transcription service: the transport
    refuses the notice that [handle_voice] sends between the download
    and the transcription. *)
Example voice_file_is_left_when_notice_is_refused :
  let r := handle_voice scenario.notice_refused
             (scenario.voice_from (Some scenario.alice)) scenario.chatting in
  elements (files scenario.chatting) = []
  ∧ elements (files (final r)) = ["/tmp/voice_abc.ogg"%string]
  ∧ outcome r = inr ().
Proof. by vm_compute. Qed.

(** ** The theorems at work on the scenarios *)

Import scenario.

(** Alice is authorized, her chat transcribes, the download succeeds and
    the transcription service is down: the file stays in [/tmp]. *)
Lemma voice_file_is_left_on_failure_witness :
  let m := business (voice_from (Some alice)) in
  let v := {| file_id := "abc" |} in
  (voice_path_of v ∈ files (final (handle_voice whisper_down m serving))
   ∧ (os_remove (voice_path_of v) ∉ trace (handle_voice whisper_down m serving))
   ∧ bot_download_file "voice/abc" (voice_path_of v)
     ∈ trace (handle_voice whisper_down m serving))
  ∧ (outcome (handle_business_voice whisper_down m serving) = inr ()
     ∧ voice_path_of v
       ∈ files (final (handle_business_voice whisper_down m serving))
     ∧ (os_remove (voice_path_of v)
        ∉ trace (handle_business_voice whisper_down m serving))
     ∧ bot_download_file "voice/abc" (voice_path_of v)
       ∈ trace (handle_business_voice whisper_down m serving)).
Proof.
  intros m v.
  destruct (voice_file_is_left_on_failure whisper_down m v serving
              "voice/abc" (ExternalError "whisper: timeout"))
    as [Hdirect Hbusiness]; try (vm_compute; reflexivity).
  split.
  - apply (Hdirect alice); vm_compute; reflexivity.
  - apply Hbusiness; [reflexivity | vm_compute; eauto].
Defined.


(** Alice sends a voice message to her chat, whose transcription is
    switched off. *)
Lemma voice_in_muted_chat_witness :
  is_transcription_enabled 7 (db muted) = false
  ∧ handle_voice all_well (voice_from (Some alice)) muted
    = mkRun (inr ())
        (with_db (add_message 7 1 None 2000 true None (db muted)) muted)
        [db_execute (sql_add_message 7 1 None 2000 true None)].
Proof.
  split; [vm_compute; reflexivity|].
  destruct (voice_in_muted_chat all_well (voice_from (Some alice)) muted)
    as (_ & _ & Hdirect & _); [vm_compute; reflexivity|].
  apply (Hdirect alice); [reflexivity | vm_compute; reflexivity].
Defined.

(** Alice answers the question about chat 9, which has no message. *)
Lemma analysis_of_empty_chat_witness :
  let notice := message_answer 7 txt_no_messages None in
  state_name (state asked) = Some waiting_for_custom_query
  ∧ handle_text all_well (text_from (Some alice) "what happened?") asked
    = mkRun (inr ()) (with_state idle asked) [show notice].
Proof.
  intros notice. split; [vm_compute; reflexivity|].
  destruct (analysis_of_empty_chat all_well asked 9) as [_ Htext].
  { vm_compute. repeat constructor; discriminate. }
  assert (state_name (state asked) = Some waiting_for_custom_query) as Hst
    by (vm_compute; reflexivity).
  assert (state_data (state asked) !! "chat_id"%string = Some 9%Z) as Hdata
    by (vm_compute; reflexivity).
  destruct (Htext (text_from (Some alice) "what happened?") alice
              eq_refl Hst Hdata) as (_ & _ & Hrun).
  exact Hrun.
Defined.

(** The connection ["biz1"] is switched off; two events later a business
    message that carries it is dropped. *)
Lemma business_message_after_disable_is_dropped_witness :
  let m := business (text_from None "hello") in
  let w := final (poll all_well
                    (business_connection (biz1 false) :: events_after_disable)
                    connected) in
  is_Some (get_business_connection "biz1" (db connected))
  ∧ get_business_connection "biz1" (db w) = None
  ∧ handle_business_voice all_well m w = mkRun (inr ()) w []
  ∧ handle_business_text m w = mkRun (inr ()) w [].
Proof.
  intros m w. split; [vm_compute; eauto|].
  apply (business_message_after_disable_is_dropped all_well (biz1 false)
           events_after_disable m connected); reflexivity.
Defined.

(** * Further properties of the handlers and of the store *)

(** ** Integers in callback data *)















(** A group has a negative id; its "Summary" button comes back as a
    request for a summary of that group. *)
Example summary_button_of_a_group :
  keyboards.payloads (keyboards.get_chat_actions_keyboard (-1001234567890))
  !! 0%nat = Some "analyze_summary_-1001234567890"%string
  ∧ py_split "_" "analyze_summary_-1001234567890"
    = ["analyze"; "summary"; "-1001234567890"]%string
  ∧ py_int "-1001234567890" = Some (-1001234567890)%Z.
Proof. by vm_compute. Qed.

(** ** The history query *)

Lemma newer_first_transitive : Transitive newer_first.
Proof. intros a b c. unfold newer_first. lia. Qed.

Lemma newer_first_total : Total newer_first.
Proof. intros a b. unfold newer_first. lia. Qed.

(** X2: [get_chat_messages] returns [limit] rows, or all the rows of
    the chat when it has fewer; they are rows of that chat, newest
    first, and no row left out is newer than a row returned. *)
Theorem get_chat_messages_returns_the_newest
    (c : Z) (limit : nat) (d : Database) :
  let stored := filter (λ m, m_chat_id m = c) (messages d) in
  let got := get_chat_messages (Some c) limit d in
  List.length got = min limit (List.length stored)
  ∧ Sorted newer_first got
  ∧ ∃ rest,
      got ++ rest ≡ₚ stored
      ∧ Forall (λ x, Forall (λ y, (message_date y <= message_date x)%Z) rest)
          got.
Proof.
  intros stored got. subst got. unfold get_chat_messages. fold stored.
  pose proof (@StronglySorted_merge_sort _ newer_first _
                newer_first_transitive newer_first_total stored) as Hsorted.
  pose proof (merge_sort_Permutation newer_first stored) as Hperm.
  set (l := merge_sort newer_first stored) in *.
  rewrite <- (take_drop limit l) in Hsorted.
  split_and!.
  - by rewrite length_take, Hperm.
  - apply StronglySorted_Sorted.
    by apply StronglySorted_app_1_l in Hsorted.
  - exists (drop limit l). split; [by rewrite take_drop|].
    apply Forall_forall. intros x Hx. apply Forall_forall. intros y Hy.
    apply (StronglySorted_app_1_elem_of newer_first _ _ x y Hsorted Hx Hy).
Qed.

(** X3: a message added to a chat that holds fewer rows than the limit
    is among the rows the next query of that chat returns, with every
    field as it was given. *)
Theorem added_message_is_fetched
    (c u : Z) (t : option string) (dt : Z) (v : bool) (tr : option string)
    (limit : nat) (d : Database) :
  (List.length (filter (λ m, m_chat_id m = c) (messages d)) < limit)%nat →
  {| m_chat_id := c; m_user_id := u; message_text := t; message_date := dt;
     is_voice := v; transcription := tr |}
  ∈ get_chat_messages (Some c) limit (add_message c u t dt v tr d).
Proof.
  intros Hfew. unfold get_chat_messages, add_message. simpl.
  rewrite filter_app, filter_cons, filter_nil. simpl.
  destruct (decide (c = c)) as [_|]; [|done].
  rewrite take_ge.
  - rewrite merge_sort_Permutation. set_solver.
  - rewrite merge_sort_Permutation, length_app. simpl. lia.
Qed.

(** ** What no event undoes *)

Lemma execute_grows (q : Sql) (d : Database) :
  messages d `prefix_of` messages (execute q d)
  ∧ analysis_results d `prefix_of` analysis_results (execute q d)
  ∧ (∀ u, is_Some (users d !! u) → is_Some (users (execute q d) !! u))
  ∧ (∀ c, is_Some (chats d !! c) → is_Some (chats (execute q d) !! c))
  ∧ (∀ c, is_Some (business_connections d !! c) →
          is_Some (business_connections (execute q d) !! c)).
Proof.
  split_and!; try (intros k Hk; by apply execute_keeps_connections).
  - destruct q; simpl; first [done | by apply prefix_app_r].
  - destruct q; simpl; first [done | by apply prefix_app_r].
  - intros k Hk. destruct q; simpl; try done.
    destruct (decide (user_id = k)) as [->|Hne];
      [rewrite lookup_insert_eq; eauto | by rewrite lookup_insert_ne].
  - intros k Hk. destruct q; simpl; try done.
    + destruct (decide (chat_id = k)) as [->|Hne];
        [rewrite lookup_insert_eq; eauto | by rewrite lookup_insert_ne].
    + destruct (chats d !! chat_id) eqn:Hrow; [|done].
      destruct (decide (chat_id = k)) as [->|Hne];
        [rewrite lookup_insert_eq; eauto | by rewrite lookup_insert_ne].
Qed.

Lemma replay_grows (qs : list Sql) (d : Database) :
  messages d `prefix_of` messages (replay d qs)
  ∧ analysis_results d `prefix_of` analysis_results (replay d qs)
  ∧ (∀ u, is_Some (users d !! u) → is_Some (users (replay d qs) !! u))
  ∧ (∀ c, is_Some (chats d !! c) → is_Some (chats (replay d qs) !! c))
  ∧ (∀ c, is_Some (business_connections d !! c) →
          is_Some (business_connections (replay d qs) !! c)).
Proof.
  revert d. induction qs as [|q qs IH]; intros d; [done|].
  destruct (execute_grows q d) as (Hm & Ha & Hu & Hc & Hb).
  destruct (IH (execute q d)) as (Hm' & Ha' & Hu' & Hc' & Hb').
  simpl. split_and!; eauto; by etrans.
Qed.

(** X4: whatever events are handled and whatever the collaborators
    answer, the rows of [messages] and of [analysis_results] that were
    there stay, unchanged and in place, new rows coming after them; and
    a user, a chat or a business connection that had a row still has
    one. *)
Theorem store_only_grows (E : Env) (evs : list Event) (w : World) :
  let d := db w in
  let d' := db (final (poll E evs w)) in
  messages d `prefix_of` messages d'
  ∧ analysis_results d `prefix_of` analysis_results d'
  ∧ (∀ u, is_Some (users d !! u) → is_Some (users d' !! u))
  ∧ (∀ c, is_Some (chats d !! c) → is_Some (chats d' !! c))
  ∧ (∀ c, is_Some (business_connections d !! c) →
          is_Some (business_connections d' !! c)).
Proof. intros d d'. subst d d'. rewrite poll_replays. apply replay_grows. Qed.

(** ** Who is authorized *)

(** X5: a user is authorized after an event exactly when the user was
    authorized before it or the event is a [/start] sent by that user:
    no other event grants authorization and none takes it away. *)
Theorem authorization_comes_from_start_alone
    (E : Env) (ev : Event) (w : World) (u : Z) :
  is_user_authorized u (db (final (handle E ev w)))
  = is_user_authorized u (db w)
    || match ev with
       | command_start m => bool_decide (u_id <$> from_user m = Some u)
       | _ => false
       end.
Proof.
  destruct ev; handlers_unfold; co_run;
    rewrite ?orb_false_r; try reflexivity.
  all: unfold is_user_authorized, get_user; simpl.
  all: destruct (decide (u_id u0 = u)) as [->|Hne];
    [ rewrite lookup_insert_eq; simpl;
      rewrite bool_decide_eq_true_2 by done; by rewrite orb_true_r
    | rewrite lookup_insert_ne by done;
      rewrite bool_decide_eq_false_2 by congruence; by rewrite orb_false_r ].
Qed.

(** ** The transcription switch *)

Lemma add_chat_keeps_switch (c k : Z) (t : string) (ti : option string)
    (d : Database) :
  is_transcription_enabled k (add_chat c t ti d)
  = is_transcription_enabled k d.
Proof.
  unfold is_transcription_enabled, get_chat, add_chat. simpl.
  destruct (decide (c = k)) as [->|Hne].
  - rewrite lookup_insert_eq. by destruct (chats d !! k).
  - by rewrite lookup_insert_ne.
Qed.

Lemma other_statements_keep_switch (k : Z) (d : Database) :
  (∀ c u t dt v tr,
     is_transcription_enabled k (add_message c u t dt v tr d)
     = is_transcription_enabled k d)
  ∧ (∀ c u t r,
       is_transcription_enabled k (add_analysis_result c u t r d)
       = is_transcription_enabled k d)
  ∧ (∀ u n f l,
       is_transcription_enabled k (add_user u n f l d)
       = is_transcription_enabled k d)
  ∧ (∀ c u uc,
       is_transcription_enabled k (add_business_connection c u uc d)
       = is_transcription_enabled k d)
  ∧ (∀ c,
       is_transcription_enabled k (remove_business_connection c d)
       = is_transcription_enabled k d).
Proof. done. Qed.

Ltac keep_switch :=
  repeat first
    [ rewrite add_chat_keeps_switch
    | rewrite (proj1 (other_statements_keep_switch _ _))
    | rewrite (proj1 (proj2 (other_statements_keep_switch _ _)))
    | rewrite (proj1 (proj2 (proj2 (other_statements_keep_switch _ _))))
    | rewrite (proj1 (proj2 (proj2 (proj2
                 (other_statements_keep_switch _ _)))))
    | rewrite (proj2 (proj2 (proj2 (proj2
                 (other_statements_keep_switch _ _))))) ].

(** X6: the transcription switch of a chat, as [is_transcription_enabled]
    reads it, is the same after an event as before, unless the event is
    a press of a [toggle_transcription_] button: an upsert of the chat
    keeps the flag of a known chat and gives a new chat the default. *)
Theorem only_the_toggle_moves_the_switch
    (E : Env) (ev : Event) (w : World) (c : Z) :
  (∀ cb, ev = callback_query cb →
         String.prefix "toggle_transcription_" (cq_data cb) = false) →
  is_transcription_enabled c (db (final (handle E ev w)))
  = is_transcription_enabled c (db w).
Proof.
  intros Hev. destruct ev; handlers_unfold;
    try specialize (Hev _ eq_refl);
    co_run; try congruence; simpl; keep_switch; reflexivity.
Qed.

Lemma set_transcription_enabled_back (c : Z) (b : bool) (row : chat_row)
    (d : Database) :
  chats d !! c = Some row →
  set_transcription_enabled c (transcription_enabled row)
    (set_transcription_enabled c b d) = d.
Proof.
  intros Hrow. unfold set_transcription_enabled. rewrite Hrow. simpl.
  rewrite lookup_insert_eq. simpl. rewrite insert_insert_eq.
  replace {| chat_type := chat_type row; title := title row;
             transcription_enabled := transcription_enabled row |}
    with row by (by destruct row).
  rewrite insert_id by done. unfold with_chats. simpl. apply db_eta.
Qed.

(** X7: a press of the toggle button of a chat that has a row negates
    the flag of that row and touches nothing else in the store, before
    anything is shown; a second press puts the store back as it was.
    For a chat without a row the press changes nothing: if its id is
    within int64 only the alert that the chat was not found is shown,
    and if it is beyond int64 the driver refuses the lookup and the
    handler ends with that error, nothing shown. *)
Theorem toggle_negates_the_switch
    (E : Env) (cb : CallbackQuery) (w : World) (p : string) (chat_id : Z) :
  py_split "_" (cq_data cb) !! 2%nat = Some p →
  py_int p = Some chat_id →
  let r := callback_toggle_transcription E cb w in
  let alert := callback_answer (Some txt_chat_not_found) true in
  match chats (db w) !! chat_id with
  | Some row =>
      db (final r)
      = with_chats
          (<[chat_id := {| chat_type := chat_type row; title := title row;
                           transcription_enabled :=
                             negb (transcription_enabled row) |}]>
             (chats (db w))) (db w)
      ∧ is_transcription_enabled chat_id (db (final r))
        = negb (is_transcription_enabled chat_id (db w))
      ∧ db (final (callback_toggle_transcription E cb (final r))) = db w
  | None =>
      r = if int64 chat_id then
            match transport E alert with
            | Some e => mkRun (inl e) w []
            | None => mkRun (inr ()) w [show alert]
            end
          else mkRun (inl DataError) w []
  end.
Proof.
  intros Hp Hid r alert. subst r alert. ascii_hyp.
  destruct (chats (db w) !! chat_id) as [row|] eqn:Hrow.
  - assert (db (final (callback_toggle_transcription E cb w))
            = set_transcription_enabled chat_id
                (negb (transcription_enabled row)) (db w)) as Hdb.
    { unfold callback_toggle_transcription, chat_id_of.
      co_run; simplify_eq; unfold get_chat in *; simplify_eq;
        try congruence; done. }
    split_and!.
    + rewrite Hdb. unfold set_transcription_enabled. by rewrite Hrow.
    + rewrite Hdb.
      unfold is_transcription_enabled, get_chat, set_transcription_enabled.
      rewrite Hrow. simpl. by rewrite lookup_insert_eq.
    + set (w1 := final (callback_toggle_transcription E cb w)) in *.
      assert (chats (db w1) !! chat_id
              = Some {| chat_type := chat_type row; title := title row;
                        transcription_enabled :=
                          negb (transcription_enabled row) |}) as Hrow1.
      { rewrite Hdb. unfold set_transcription_enabled. rewrite Hrow. simpl.
        by rewrite lookup_insert_eq. }
      assert (db (final (callback_toggle_transcription E cb w1))
              = set_transcription_enabled chat_id
                  (transcription_enabled row) (db w1)) as ->.
      { unfold callback_toggle_transcription, chat_id_of.
        co_run; simplify_eq; unfold get_chat in *; simplify_eq; simpl;
          try congruence; by rewrite ?negb_involutive. }
      rewrite Hdb. by apply set_transcription_enabled_back.
  - unfold callback_toggle_transcription, chat_id_of.
    co_run; simplify_eq; unfold get_chat in *; simplify_eq;
      try congruence; done.
Qed.

(** ** Failures of the voice pipeline *)

Ltac relayed_only :=
  repeat first
    [ apply Forall_nil_2
    | apply Forall_cons; split; [by eexists|] ].

(** X8: [handle_business_voice] returns normally whatever the
    message, the store and the collaborators are: a failure of the
    download or of the transcription is caught, and so is a failure to
    report it.  What it shows, it sends on the business relay, as a
    reply to the message, at most once. *)
Theorem business_voice_never_raises (E : Env) (m : Message) (w : World) :
  let r := handle_business_voice E m w in
  outcome r = inr ()
  ∧ Forall (relayed m) (shown (trace r))
  ∧ (List.length (shown (trace r)) <= 1)%nat.
Proof.
  intros r. subst r. unfold handle_business_voice, relayed.
  co_run; simpl; split_and!;
    first [reflexivity | lia | relayed_only].
Qed.

(** X9: in [handle_voice], for an authorized sender in a transcribing
    chat, with a transport that delivers: when [bot.get_file], the
    download or the transcription service raises, the handler reports
    that very error to the chat and returns; the chat has been
    upserted, and no message is stored. *)
Theorem failed_voice_is_reported_not_stored
    (E : Env) (m : Message) (user : User) (v : Voice) (w : World)
    (e : exn) :
  from_user m = Some user →
  is_user_authorized (u_id user) (db w) = true →
  is_transcription_enabled (c_id (chat m)) (db w) = true →
  voice m = Some v →
  (∀ o, transport E o = None) →
  get_file E (file_id v) = inl e
  ∨ (∃ p, get_file E (file_id v) = inr p
          ∧ (download_file E p (voice_path_of v) = Some e
             ∨ (download_file E p (voice_path_of v) = None
                ∧ transcribe_audio E (voice_path_of v) = inl e))) →
  let r := handle_voice E m w in
  outcome r = inr ()
  ∧ messages (db (final r)) = messages (db w)
  ∧ is_Some (chats (db (final r)) !! c_id (chat m))
  ∧ last (shown (trace r))
    = Some (message_answer (c_id (chat m)) (txt_voice_error (str e)) None).
Proof.
  intros Hu Hok Hon Hv Hsend Hfail r. subst r.
  unfold handle_voice. rewrite Hu, Hv.
  co_run; bool_hyps; try congruence;
    try (rewrite Hsend in *; discriminate).
  all: destruct Hfail as [Hf|(p & Hf & [Hd|[Hd Ht]])]; simplify_eq;
    try congruence.
  all: split_and!; try reflexivity; apply add_chat_lookup.
Qed.

(** X10: in [handle_voice], for an authorized sender in a transcribing
    chat, when every collaborator answers: the chat is upserted, one
    message is appended with [is_voice] true and the transcription the
    service returned, the downloaded file is removed, and the user sees
    the notice and then the transcription in its place. *)
Theorem transcribed_voice_is_stored_and_shown
    (E : Env) (m : Message) (user : User) (v : Voice) (w : World)
    (file_path transcription : string) :
  from_user m = Some user →
  is_user_authorized (u_id user) (db w) = true →
  is_transcription_enabled (c_id (chat m)) (db w) = true →
  voice m = Some v →
  (∀ o, transport E o = None) →
  get_file E (file_id v) = inr file_path →
  download_file E file_path (voice_path_of v) = None →
  transcribe_audio E (voice_path_of v) = inr transcription →
  let r := handle_voice E m w in
  outcome r = inr ()
  ∧ messages (db (final r))
    = messages (db w)
      ++ [{| m_chat_id := c_id (chat m); m_user_id := u_id user;
             message_text := None; message_date := date m;
             is_voice := true; transcription := Some transcription |}]
  ∧ is_Some (chats (db (final r)) !! c_id (chat m))
  ∧ files (final r) = files w ∖ {[voice_path_of v]}
  ∧ shown (trace r)
    = [message_answer (c_id (chat m)) txt_transcribing None;
       edit_text the_status_msg (txt_transcription transcription) None].
Proof.
  intros Hu Hok Hon Hv Hsend Hfile Hdl Htr r. subst r.
  unfold handle_voice. rewrite Hu, Hv.
  co_run; bool_hyps; simplify_eq; try congruence;
    try (rewrite Hsend in *; discriminate).
  - split_and!; try reflexivity; [apply add_chat_lookup|].
    apply set_eq. intros x.
    rewrite !elem_of_difference, elem_of_union, elem_of_singleton. tauto.
  - exfalso. match goal with H : _ ∉ _ |- _ => apply H end.
    apply elem_of_union_l. by apply elem_of_singleton.
Qed.

(** ** The pending custom query *)

(** X11: a press of the "own question" button of chat [c] leaves the
    FSM context waiting for the query with [c] as its target, whatever
    target it held before, and this before anything is shown; the store
    is not changed and no analysis is run, whether or not the chat has
    messages.  A press of "back" clears the context, also before
    anything is shown. *)
Theorem pending_query_is_set_and_cancelled
    (E : Env) (cb : CallbackQuery) (w : World) :
  (∀ p c,
     py_split "_" (cq_data cb) !! 1%nat = Some "custom"%string →
     py_split "_" (cq_data cb) !! 2%nat = Some p →
     py_int p = Some c →
     let r := callback_analyze E cb w in
     state (final r)
     = {| state_name := Some waiting_for_custom_query;
          state_data := <["chat_id"%string := c]> (state_data (state w)) |}
     ∧ state_data (state (final r)) !! "chat_id"%string = Some c
     ∧ db (final r) = db w
     ∧ Forall (λ ef, is_analysis_call ef = false) (trace r))
  ∧ (let r := callback_back_to_menu E cb w in
     state (final r) = idle ∧ db (final r) = db w).
Proof.
  split.
  - intros p c Hty Hp Hc r. subst r. ascii_hyp. unfold callback_analyze.
    co_run; bool_hyps; simplify_eq; try congruence;
      (split_and!; [reflexivity | simpl; apply lookup_insert_eq | reflexivity
                   | repeat constructor]).
  - unfold callback_back_to_menu. co_run; done.
Qed.

(** X12: while a custom query is pending, a text message is taken as
    the query and not as a message of its chat: whoever sent it and
    whatever happens to the analysis, no row of [users], [chats],
    [messages] or [business_connections] is added or changed. *)
Theorem pending_text_is_not_stored (E : Env) (m : Message) (w : World) :
  state_name (state w) = Some waiting_for_custom_query →
  let d' := db (final (handle_text E m w)) in
  users d' = users (db w)
  ∧ chats d' = chats (db w)
  ∧ messages d' = messages (db w)
  ∧ business_connections d' = business_connections (db w).
Proof.
  intros Hst d'. subst d'. unfold handle_text.
  co_run; bool_hyps; try congruence; done.
Qed.

(** X13: when the analysis service raises on a pending custom query,
    the exception leaves [handle_text]; the "analysing" notice has been
    shown, no analysis is stored, and the query is still pending with
    the same target. *)
Theorem failed_custom_analysis_stays_pending
    (E : Env) (m : Message) (user : User) (w : World) (c : Z)
    (history : list message_row) (e : exn) :
  from_user m = Some user →
  state_name (state w) = Some waiting_for_custom_query →
  state_data (state w) !! "chat_id"%string = Some c →
  get_chat_messages (Some c) 300 (db w) = history →
  history ≠ [] →
  transport E (message_answer (c_id (chat m)) txt_analysing None) = None →
  custom_analysis E history (text m) = inl e →
  handle_text E m w
  = mkRun (inl e) w
      [show (message_answer (c_id (chat m)) txt_analysing None);
       call_custom_analysis history (text m)].
Proof.
  intros Hu Hst Hdata Hh Hsome Hsend Hfail.
  unfold handle_text. rewrite Hu.
  co_run; bool_hyps; try rewrite Hdata in *; simplify_eq; try congruence.
  all: match goal with
       | H : get_chat_messages _ _ _ = _ :: _ |- _ => rewrite H in *
       end; congruence.
Qed.

(** X14: when the analysis service raises on a fixed analysis, the
    exception leaves [callback_analyze] after the "analysing" edit; no
    analysis is stored and nothing else is shown. *)
Theorem failed_fixed_analysis_stores_nothing
    (E : Env) (cb : CallbackQuery) (w : World) (ty p : string) (c : Z)
    (history : list message_row) (e : exn) :
  py_split "_" (cq_data cb) !! 1%nat = Some ty →
  py_split "_" (cq_data cb) !! 2%nat = Some p →
  py_int p = Some c →
  ty ≠ "custom"%string →
  get_chat_messages (Some c) 300 (db w) = history →
  history ≠ [] →
  transport E (edit_text the_callback_message txt_analysing None) = None →
  analyze_messages E history ty = inl e →
  callback_analyze E cb w
  = mkRun (inl e) w
      [show (edit_text the_callback_message txt_analysing None);
       call_analyze_messages history ty].
Proof.
  intros Hty Hp Hc Hfixed Hh Hsome Hsend Hfail. ascii_hyp.
  unfold callback_analyze.
  co_run; bool_hyps; simplify_eq; try congruence.
  all: match goal with
       | H : get_chat_messages _ _ _ = _ :: _ |- _ => rewrite H in *
       end; congruence.
Qed.

(** ** Updates the handlers cannot read *)

(** X15: a callback payload whose third piece is missing makes the
    handler raise [IndexError]; one whose third piece [int] does not
    read makes it raise [ValueError]: ASCII text that is no decimal
    literal, or text outside ASCII that the Unicode tables reject.  In
    both cases this is before the store is read and with nothing
    done. *)
Theorem malformed_payload_raises_at_once
    (E : Env) (cb : CallbackQuery) (w : World) :
  let broken e :=
    callback_chat_actions E cb w = mkRun (inl e) w []
    ∧ callback_chat_settings E cb w = mkRun (inl e) w []
    ∧ callback_toggle_transcription E cb w = mkRun (inl e) w []
    ∧ (is_Some (py_split "_" (cq_data cb) !! 1%nat) →
       callback_analyze E cb w = mkRun (inl e) w []) in
  match py_split "_" (cq_data cb) !! 2%nat with
  | None => broken IndexError
  | Some p =>
      match (if ascii_only p then py_int p else int_unicode E p) with
      | None => broken ValueError
      | Some _ => True
      end
  end.
Proof.
  intros broken. subst broken.
  destruct (py_split "_" (cq_data cb) !! 2%nat) as [p|] eqn:Hp;
    [destruct (if ascii_only p then py_int p else int_unicode E p) eqn:Hint;
       [done|]|].
  all: split_and!; [| | |intros [ty Hty]];
    unfold callback_chat_actions, callback_chat_settings,
      callback_toggle_transcription, callback_analyze, chat_id_of;
    co_unfold; rewrite ?Hty, Hp; co_simpl; rewrite ?Hint; reflexivity.
Qed.

(** X16: an update without a sender makes [cmd_start], [handle_voice]
    and [handle_text] raise [AttributeError] before anything is done. *)
Theorem senderless_message_raises (E : Env) (m : Message) (w : World) :
  from_user m = None →
  cmd_start E m w = mkRun (inl AttributeError) w []
  ∧ handle_voice E m w = mkRun (inl AttributeError) w []
  ∧ handle_text E m w = mkRun (inl AttributeError) w [].
Proof.
  intros Hnone. unfold cmd_start, handle_voice, handle_text.
  rewrite Hnone. split_and!; co_run; done.
Qed.

(** ** Analyses and the history they were made of *)

Lemma get_chat_messages_elem (x : message_row) (oc : option Z) (n : nat)
    (d : Database) :
  x ∈ get_chat_messages oc n d →
  x ∈ messages d ∧ oc = Some (m_chat_id x).
Proof.
  unfold get_chat_messages. destruct oc as [c|]; [|by intros ?%elem_of_nil].
  intros Hx%subseteq_take.
  rewrite merge_sort_Permutation in Hx.
  apply list_elem_of_filter in Hx as [<- Hx]. done.
Qed.

Lemma execute_keeps_history (q : Sql) (d : Database) :
  analyses_have_history d →
  match q with
  | sql_add_analysis_result c _ _ _ =>
      ∃ m, m ∈ messages d ∧ c = Some (m_chat_id m)
  | _ => True
  end →
  analyses_have_history (execute q d).
Proof.
  unfold analyses_have_history. intros Hd Hq.
  destruct q; simpl; try done.
  - eapply Forall_impl; [exact Hd|]. simpl.
    intros a (m & Hm & Ha). exists m. split; [|done].
    apply elem_of_app. by left.
  - apply Forall_app. split; [done|]. by apply Forall_singleton.
Qed.

Lemma handle_keeps_history (E : Env) (ev : Event) (w : World) :
  analyses_have_history (db w) →
  analyses_have_history (db (final (handle E ev w))).
Proof.
  intros Hw. destruct ev; handlers_unfold; co_run; try exact Hw.
  all: repeat (apply execute_keeps_history; [|simpl; try exact I]);
    try exact Hw.
  all: match goal with
       | H : get_chat_messages ?oc _ _ = ?x :: _ |- _ =>
           exists x; apply (get_chat_messages_elem x oc 300);
           rewrite H; apply list_elem_of_here
       end.
Qed.

(** X17: if every stored analysis is the analysis of a chat that has a
    stored message, this is still so after any events, whatever the
    collaborators answer: an analysis is stored only after a non-empty
    history was fetched for its chat, and no message is ever removed. *)
Theorem analyses_keep_their_history
    (E : Env) (evs : list Event) (w : World) :
  analyses_have_history (db w) →
  analyses_have_history (db (final (poll E evs w))).
Proof.
  revert w. induction evs as [|ev rest IH]; intros w Hw; [done|].
  destruct (poll_cons E ev rest w) as [-> _].
  by apply IH, handle_keeps_history.
Qed.

(** ** Registration and business connections *)

(** X18: [/start] stores the sender with the names the message carries
    and with [is_authorized] true, whether or not the sender had a row,
    leaves the other users and the other tables alone, and doing it
    again changes nothing more. *)
Theorem start_registers_the_sender
    (E : Env) (m : Message) (user : User) (w : World) :
  from_user m = Some user →
  let d' := db (final (cmd_start E m w)) in
  get_user (u_id user) d'
  = Some {| username := u_username user; first_name := u_first_name user;
            last_name := u_last_name user; is_authorized := true |}
  ∧ (∀ k, k ≠ u_id user → get_user k d' = get_user k (db w))
  ∧ chats d' = chats (db w)
  ∧ messages d' = messages (db w)
  ∧ db (final (cmd_start E m (final (cmd_start E m w)))) = d'.
Proof.
  intros Hu d'. subst d'.
  assert (∀ w0, db (final (cmd_start E m w0))
                = add_user (u_id user) (u_username user) (u_first_name user)
                    (u_last_name user) (db w0)) as Hdb.
  { intros w0. unfold cmd_start. rewrite Hu. co_run; done. }
  rewrite !Hdb. unfold get_user, add_user. simpl. split_and!; try done.
  - by rewrite lookup_insert_eq.
  - intros k Hk. by rewrite lookup_insert_ne.
  - unfold with_users. simpl. by rewrite insert_insert_eq.
Qed.

Lemma business_title_is_not_empty (m : Message) :
  truthy (business_title m) = true.
Proof.
  unfold business_title, py_or.
  destruct (c_title (chat m)) as [[|]|];
    destruct (c_first_name (chat m)) as [[|]|]; done.
Qed.

(** X19: after a lifecycle event that enables a connection with a
    non-empty id, whatever the connection was before, the lookup
    returns it as active with the owner the event names, and a business
    text that carries the id is accepted: its chat is upserted as a
    business chat with a non-empty title and its message is appended. *)
Theorem enabled_connection_accepts_messages
    (b : BusinessConnection) (m : Message) (w : World) :
  is_enabled b = true →
  bcn_id b ≠ ""%string →
  business_connection_id m = Some (bcn_id b) →
  let w1 := final (handle_business_connection b w) in
  let d' := db (final (handle_business_text m w1)) in
  get_business_connection (bcn_id b) (db w1)
  = Some {| bc_user_id := u_id (bcn_user b);
            bc_user_chat_id := bcn_user_chat_id b; is_active := true |}
  ∧ (∃ row, chats d' !! c_id (chat m) = Some row
            ∧ chat_type row = "business"%string
            ∧ truthy (title row) = true)
  ∧ messages d'
    = messages (db w)
      ++ [{| m_chat_id := c_id (chat m); m_user_id := sender_id m;
             message_text := text m; message_date := date m;
             is_voice := false; transcription := None |}].
Proof.
  intros Hen Hid Hm w1 d'. subst d'.
  assert (db w1 = add_business_connection (bcn_id b) (u_id (bcn_user b))
                    (bcn_user_chat_id b) (db w)) as Hdb.
  { subst w1. unfold handle_business_connection. rewrite Hen. co_run; done. }
  assert (get_business_connection (bcn_id b) (db w1)
          = Some {| bc_user_id := u_id (bcn_user b);
                    bc_user_chat_id := bcn_user_chat_id b;
                    is_active := true |}) as Hget.
  { rewrite Hdb. unfold get_business_connection, add_business_connection.
    simpl. by rewrite lookup_insert_eq. }
  split; [done|].
  unfold handle_business_text. rewrite Hm. simpl.
  destruct (bcn_id b) eqn:Hb; [done|]. simpl.
  co_run; try congruence. simpl. rewrite Hdb. simpl. split; [|done].
  eexists. split; [apply lookup_insert_eq|].
  split; [done | apply business_title_is_not_empty].
Qed.

(** ** The further properties at work on the scenarios *)

(** Alice's chat holds one message; the voice message stored next is
    fetched with its transcription. *)
Lemma added_message_is_fetched_witness :
  {| m_chat_id := 7; m_user_id := 1; message_text := None;
     message_date := 2000; is_voice := true;
     transcription := Some "hello world"%string |}
  ∈ get_chat_messages (Some 7%Z) 300
      (add_message 7 1 None 2000 true (Some "hello world"%string)
         (db chatting)).
Proof.
  apply (added_message_is_fetched 7 1 None 2000 true
           (Some "hello world"%string) 300 (db chatting)).
  vm_compute. lia.
Defined.

(** Alice writes again in the chat she muted: it stays muted. *)
Lemma only_the_toggle_moves_the_switch_witness :
  is_transcription_enabled 7
    (db (final (handle all_well (text_message (text_from (Some alice) "again"))
                  muted)))
  = is_transcription_enabled 7 (db muted).
Proof.
  apply (only_the_toggle_moves_the_switch all_well
           (text_message (text_from (Some alice) "again")) muted 7).
  intros cb Hcb. discriminate Hcb.
Defined.

(** Alice switches the transcription of her chat off, and on again. *)
Lemma toggle_negates_the_switch_witness :
  let cb := press "toggle_transcription_7" alice in
  let w1 := final (callback_toggle_transcription all_well cb chatting) in
  is_transcription_enabled 7 (db chatting) = true
  ∧ is_transcription_enabled 7 (db w1) = false
  ∧ db (final (callback_toggle_transcription all_well cb w1)) = db chatting.
Proof.
  intros cb w1. subst w1. split; [vm_compute; reflexivity|].
  pose proof (toggle_negates_the_switch all_well cb chatting "7" 7
                eq_refl eq_refl) as Hflip.
  destruct (chats (db chatting) !! 7%Z) as [row|] eqn:Hrow;
    [|vm_compute in Hrow; discriminate Hrow].
  destruct Hflip as (_ & Hneg & Hback). split; [|exact Hback].
  rewrite Hneg. vm_compute. reflexivity.
Defined.

(** The transcription service is down when Alice sends a voice
    message. *)
Lemma failed_voice_is_reported_not_stored_witness :
  let r := handle_voice whisper_down (voice_from (Some alice)) chatting in
  outcome r = inr ()
  ∧ messages (db (final r)) = messages (db chatting)
  ∧ is_Some (chats (db (final r)) !! 7%Z)
  ∧ last (shown (trace r))
    = Some (message_answer 7 (txt_voice_error "whisper: timeout") None).
Proof.
  apply (failed_voice_is_reported_not_stored whisper_down
           (voice_from (Some alice)) alice {| file_id := "abc" |} chatting
           (ExternalError "whisper: timeout"));
    try reflexivity; try (vm_compute; reflexivity).
  right. exists "voice/abc"%string. split; [reflexivity|].
  right. split; reflexivity.
Defined.

(** Scenario B: Alice, authorized, sends a voice note that the service
    transcribes as "hello world". *)
Lemma transcribed_voice_is_stored_and_shown_witness :
  let r := handle_voice all_well (voice_from (Some alice)) chatting in
  outcome r = inr ()
  ∧ messages (db (final r))
    = messages (db chatting)
      ++ [{| m_chat_id := 7; m_user_id := 1; message_text := None;
             message_date := 2000; is_voice := true;
             transcription := Some "hello world"%string |}]
  ∧ is_Some (chats (db (final r)) !! 7%Z)
  ∧ files (final r) = files chatting ∖ {[voice_path_of {| file_id := "abc" |}]}
  ∧ shown (trace r)
    = [message_answer 7 txt_transcribing None;
       edit_text the_status_msg (txt_transcription "hello world") None].
Proof.
  apply (transcribed_voice_is_stored_and_shown all_well
           (voice_from (Some alice)) alice {| file_id := "abc" |} chatting
           "voice/abc" "hello world");
    try reflexivity; vm_compute; reflexivity.
Defined.

(** Alice was asked for her question about chat 7; what she writes is
    not stored as a message. *)
Lemma pending_text_is_not_stored_witness :
  let d' := db (final (handle_text all_well
                         (text_from (Some alice) "what did we discuss?")
                         asked_about_7)) in
  users d' = users (db asked_about_7)
  ∧ chats d' = chats (db asked_about_7)
  ∧ messages d' = messages (db asked_about_7)
  ∧ business_connections d' = business_connections (db asked_about_7).
Proof.
  apply (pending_text_is_not_stored all_well
           (text_from (Some alice) "what did we discuss?") asked_about_7).
  vm_compute. reflexivity.
Defined.

(** The analysis service is down when Alice sends her question: the
    question is still awaited. *)
Lemma failed_custom_analysis_stays_pending_witness :
  let m := text_from (Some alice) "what did we discuss?" in
  let history := get_chat_messages (Some 7%Z) 300 (db asked_about_7) in
  state_name (state asked_about_7) = Some waiting_for_custom_query
  ∧ handle_text analysis_down m asked_about_7
    = mkRun (inl (ExternalError "analysis: quota")) asked_about_7
        [show (message_answer 7 txt_analysing None);
         call_custom_analysis history (Some "what did we discuss?"%string)].
Proof.
  intros m history. split; [vm_compute; reflexivity|].
  apply (failed_custom_analysis_stays_pending analysis_down m alice
           asked_about_7 7 history (ExternalError "analysis: quota"));
    try reflexivity; try (vm_compute; reflexivity).
  vm_compute. discriminate.
Defined.

(** The analysis service is down when a summary of Alice's chat is
    asked for. *)
Lemma failed_fixed_analysis_stores_nothing_witness :
  let cb := press "analyze_summary_7" stranger in
  let history := get_chat_messages (Some 7%Z) 300 (db chatting) in
  callback_analyze analysis_down cb chatting
  = mkRun (inl (ExternalError "analysis: quota")) chatting
      [show (edit_text the_callback_message txt_analysing None);
       call_analyze_messages history "summary"].
Proof.
  intros cb history.
  apply (failed_fixed_analysis_stores_nothing analysis_down cb chatting
           "summary" "7" 7 history (ExternalError "analysis: quota"));
    try reflexivity; try (vm_compute; reflexivity);
    vm_compute; discriminate.
Defined.

(** A channel post has no sender. *)
Lemma senderless_message_raises_witness :
  cmd_start all_well (text_from None "/start") fresh
  = mkRun (inl AttributeError) fresh []
  ∧ handle_voice all_well (text_from None "/start") fresh
    = mkRun (inl AttributeError) fresh []
  ∧ handle_text all_well (text_from None "/start") fresh
    = mkRun (inl AttributeError) fresh [].
Proof.
  apply (senderless_message_raises all_well (text_from None "/start") fresh).
  reflexivity.
Defined.

(** From a fresh store: Alice starts, writes, and asks for a summary. *)
Lemma analyses_keep_their_history_witness :
  let d := db (final (poll all_well
                        [command_start (text_from (Some alice) "/start");
                         text_message (text_from (Some alice) "hi");
                         callback_query (press "analyze_summary_7" alice)]
                        fresh)) in
  List.length (analysis_results d) = 1%nat ∧ analyses_have_history d.
Proof.
  intros d. split; [vm_compute; reflexivity|].
  apply (analyses_keep_their_history all_well _ fresh).
  apply Forall_nil_2.
Defined.

(** Alice sends [/start] to a fresh bot. *)
Lemma start_registers_the_sender_witness :
  let d' := db (final (cmd_start all_well (text_from (Some alice) "/start")
                         fresh)) in
  get_user 1 d'
  = Some {| username := Some "alice"%string;
            first_name := Some "Alice"%string;
            last_name := None; is_authorized := true |}
  ∧ (∀ k, k ≠ 1%Z → get_user k d' = get_user k (db fresh))
  ∧ chats d' = chats (db fresh)
  ∧ messages d' = messages (db fresh)
  ∧ db (final (cmd_start all_well (text_from (Some alice) "/start")
                 (final (cmd_start all_well (text_from (Some alice) "/start")
                           fresh)))) = d'.
Proof.
  apply (start_registers_the_sender all_well
           (text_from (Some alice) "/start") alice fresh).
  reflexivity.
Defined.

(** The connection ["biz1"] is enabled on a fresh bot, and a customer
    writes. *)
Lemma enabled_connection_accepts_messages_witness :
  let m := business (text_from None "hello") in
  let w1 := final (handle_business_connection (biz1 true) fresh) in
  let d' := db (final (handle_business_text m w1)) in
  get_business_connection "biz1" (db w1)
  = Some {| bc_user_id := 1; bc_user_chat_id := 7; is_active := true |}
  ∧ (∃ row, chats d' !! 7%Z = Some row
            ∧ chat_type row = "business"%string
            ∧ truthy (title row) = true)
  ∧ messages d'
    = messages (db fresh)
      ++ [{| m_chat_id := 7; m_user_id := 0;
             message_text := Some "hello"%string; message_date := 1000;
             is_voice := false; transcription := None |}].
Proof.
  apply (enabled_connection_accepts_messages (biz1 true)
           (business (text_from None "hello")) fresh);
    [reflexivity | discriminate | reflexivity].
Defined.

(** ** Menus of a chat, and the first message after [/start] *)

(** X20: the two menus of a chat change nothing, in the store, the
    files or the FSM context.  For a chat without a row whose id is
    within int64 each shows the alert that the chat was not found and
    nothing else; for an id beyond int64 the driver refuses the lookup
    and each ends with that error, nothing shown.  For a chat with a
    row, the transport delivering, the settings menu shows the title of
    the row and the toggle button in the state of the stored flag. *)
Theorem chat_menus_only_read
    (E : Env) (cb : CallbackQuery) (w : World) (p : string) (chat_id : Z) :
  py_split "_" (cq_data cb) !! 2%nat = Some p →
  py_int p = Some chat_id →
  let alert := callback_answer (Some txt_chat_not_found) true in
  let not_found :=
    if int64 chat_id then
      match transport E alert with
      | Some e => mkRun (inl e) w []
      | None => mkRun (inr ()) w [show alert]
      end
    else mkRun (inl DataError) w [] in
  final (callback_chat_actions E cb w) = w
  ∧ final (callback_chat_settings E cb w) = w
  ∧ match chats (db w) !! chat_id with
    | None =>
        callback_chat_actions E cb w = not_found
        ∧ callback_chat_settings E cb w = not_found
    | Some row =>
        (∀ o, transport E o = None) →
        shown (trace (callback_chat_settings E cb w))
        = [edit_text the_callback_message (txt_chat_settings (title row))
             (Some (chat_settings_keyboard chat_id
                      (transcription_enabled row)));
           callback_answer None false]
    end.
Proof.
  intros Hp Hid alert not_found. subst alert not_found. ascii_hyp.
  split_and!.
  - unfold callback_chat_actions, chat_id_of. co_run; done.
  - unfold callback_chat_settings, chat_id_of. co_run; done.
  - destruct (chats (db w) !! chat_id) as [row|] eqn:Hrow.
    + intros Hsend. unfold callback_chat_settings, chat_id_of.
      co_run; simplify_eq; unfold get_chat in *; simplify_eq;
        try (rewrite Hsend in *; discriminate); try congruence; done.
    + split; unfold callback_chat_actions, callback_chat_settings, chat_id_of;
        co_run; simplify_eq; unfold get_chat in *; simplify_eq;
        try congruence; done.
Qed.

(** X21: once a user has sent [/start], a text message of that user
    that meets no pending query is stored: its chat is upserted, one
    message with its text is appended, and nothing is shown. *)
Theorem text_after_start_is_stored
    (E : Env) (m0 m : Message) (user : User) (w : World) :
  from_user m0 = Some user →
  from_user m = Some user →
  state_name (state w) ≠ Some waiting_for_custom_query →
  let w1 := final (cmd_start E m0 w) in
  let r := handle_text E m w1 in
  r = mkRun (inr ())
        (with_db
           (add_message (c_id (chat m)) (u_id user) (text m) (date m) false
              None
              (add_chat (c_id (chat m)) (c_type (chat m))
                 (py_or (c_title (chat m)) (c_first_name (chat m)))
                 (db w1))) w1)
        [db_execute (sql_add_chat (c_id (chat m)) (c_type (chat m))
                       (py_or (c_title (chat m)) (c_first_name (chat m))));
         db_execute (sql_add_message (c_id (chat m)) (u_id user) (text m)
                       (date m) false None)]
  ∧ shown (trace r) = [].
Proof.
  intros Hu0 Hu Hidle w1 r. subst r.
  assert (is_user_authorized (u_id user) (db w1) = true) as Hok.
  { subst w1. unfold cmd_start. rewrite Hu0.
    co_run; unfold is_user_authorized, get_user; simpl;
      by rewrite lookup_insert_eq. }
  assert (state_name (state w1) ≠ Some waiting_for_custom_query) as Hidle1.
  { subst w1. unfold cmd_start. rewrite Hu0. co_run; done. }
  unfold handle_text. rewrite Hu.
  co_run; bool_hyps; try congruence; done.
Qed.

(** Alice opens the settings of the chat she muted. *)
Lemma chat_menus_only_read_witness :
  let cb := press "chat_settings_7" alice in
  final (callback_chat_settings all_well cb muted) = muted
  ∧ shown (trace (callback_chat_settings all_well cb muted))
    = [edit_text the_callback_message (txt_chat_settings (Some "Alice"%string))
         (Some (chat_settings_keyboard 7 false));
       callback_answer None false].
Proof.
  intros cb.
  pose proof (chat_menus_only_read all_well cb muted "7" 7 eq_refl eq_refl)
    as (_ & Hsame & Hshown).
  split; [exact Hsame|].
  destruct (chats (db muted) !! 7%Z) as [row|] eqn:Hrow;
    [|vm_compute in Hrow; discriminate Hrow].
  vm_compute in Hrow. injection Hrow as <-.
  apply Hshown. reflexivity.
Defined.

(** Scenario: Alice starts the bot and writes. *)
Lemma text_after_start_is_stored_witness :
  let w1 := final (cmd_start all_well (text_from (Some alice) "/start")
                     fresh) in
  let r := handle_text all_well (text_from (Some alice) "hi") w1 in
  messages (db (final r))
  = [{| m_chat_id := 7; m_user_id := 1; message_text := Some "hi"%string;
        message_date := 1000; is_voice := false; transcription := None |}]
  ∧ shown (trace r) = [].
Proof.
  intros w1 r.
  destruct (text_after_start_is_stored all_well
              (text_from (Some alice) "/start") (text_from (Some alice) "hi")
              alice fresh eq_refl eq_refl) as [Hrun Hshown].
  { vm_compute. discriminate. }
  split; [|exact Hshown].
  subst r w1. rewrite Hrun. vm_compute. reflexivity.
Defined.
